(** * Wake-word capture service: the request dispatcher of [src/services/assist.ts]

    A shallow embedding of the upload, list and download handlers and of the
    dispatcher [assistHandler], followed by the properties of the service's
    specification that were checked against it.

    Conventions of the embedding.
    - A JavaScript string is a [string]: a sequence of code units below 256.
      That covers every header value (header values are byte strings) and
      ASCII / Latin-1 query text.
    - A JavaScript number that the handlers produce with [parseInt] is a
      [JsNumber]: [NaN] or the exact integer denoted by the digits.  The
      runtime rounds that integer to the nearest double; rounding is monotone
      and exact below 2^53, so comparing with 0, 1000 and 256000 and testing
      for zero give the same answers on the integer.
    - [null] and [undefined] are [None] where the source only tests them for
      truthiness.
    - The storage bucket, the clock and the random source are the handler's
      environment: an interface [R2Bucket] and a [World] threaded through a
      state-and-exception monad. *)

From Stdlib Require Import ZArith List Ascii String Bool Lia DecimalString.
From stdpp Require Import base option list strings gmap.

Set Warnings "-register-all".

Local Open Scope string_scope.
Local Open Scope Z_scope.

(** ** JavaScript values and string primitives *)

Inductive JsNumber : Type :=
| NaN
| Num (z : Z).

(** [Number.prototype.toString] on an integer (decimal digits; the runtime
    switches to exponent notation from 10^21 on, far above any size, timestamp
    or bound that the handlers print). *)
Definition Number_toString (z : Z) : string :=
  NilZero.string_of_int (Z.to_int z).

Definition JsNumber_toString (n : JsNumber) : string :=
  match n with
  | NaN => "NaN"
  | Num z => Number_toString z
  end.

(** [Math.min(a, b)]: NaN if either argument is NaN. *)
Definition Math_min (a b : JsNumber) : JsNumber :=
  match a, b with
  | Num x, Num y => Num (Z.min x y)
  | _, _ => NaN
  end.

(** [a <= b] and [a > b] on numbers: every comparison with NaN is false. *)
Definition js_le (a b : JsNumber) : bool :=
  match a, b with
  | Num x, Num y => x <=? y
  | _, _ => false
  end.

Definition js_gt (a b : JsNumber) : bool :=
  match a, b with
  | Num x, Num y => x >? y
  | _, _ => false
  end.

(** Truthiness of a string that may be [null]: non-null and non-empty. *)
Definition truthy (o : option string) : bool :=
  match o with
  | Some s => negb (s =? "")%string
  | None => false
  end.

(** [o || d] where [o] is a string or [null] and [d] a string. *)
Definition or_default (o : option string) (d : string) : string :=
  match o with
  | Some s => if (s =? "")%string then d else s
  | None => d
  end.

(** [o || null] and [o || undefined]. *)
Definition or_null (o : option string) : option string :=
  if truthy o then o else None.

(** [Array.prototype.includes] on an array of strings. *)
Fixpoint includes (l : list string) (x : string) : bool :=
  match l with
  | [] => false
  | y :: l' => (y =? x)%string || includes l' x
  end.

(** [Array.prototype.join]. *)
Fixpoint join (sep : string) (l : list string) : string :=
  match l with
  | [] => ""
  | [x] => x
  | x :: l' => x +:+ sep +:+ join sep l'
  end.

(** [s.split(c)[0]] for a one-character separator: the text before the first
    occurrence of [c], the whole string when there is none. *)
Fixpoint split_head (c : ascii) (s : string) : string :=
  match s with
  | EmptyString => EmptyString
  | String a s' => if Ascii.eqb a c then EmptyString else String a (split_head c s')
  end.

Fixpoint drop_chars (n : nat) (s : string) : string :=
  match n, s with
  | O, _ => s
  | S n', String _ s' => drop_chars n' s'
  | S _, EmptyString => EmptyString
  end.

(** [s.replace(pat, rep)] with a string pattern: the first occurrence only. *)
Fixpoint replace_first (pat rep s : string) : string :=
  if String.prefix pat s then rep +:+ drop_chars (String.length pat) s
  else match s with
       | EmptyString => EmptyString
       | String a s' => String a (replace_first pat rep s')
       end.

(** [s.substring(from, to)] for [from <= to]. *)
Definition js_substring (from to : nat) (s : string) : string :=
  String.substring from (to - from) s.

Definition lower_char (c : ascii) : ascii :=
  let n := nat_of_ascii c in
  if (Nat.leb 65 n && Nat.leb n 90)%bool then ascii_of_nat (n + 32) else c.

Fixpoint lowercase (s : string) : string :=
  match s with
  | EmptyString => EmptyString
  | String c s' => String (lower_char c) (lowercase s')
  end.

(** *** [parseInt(s, 10)] *)

(** White space skipped by [parseInt], within the code units modelled. *)
Definition is_white_space (c : ascii) : bool :=
  let n := nat_of_ascii c in
  (Nat.leb 9 n && Nat.leb n 13) || Nat.eqb n 32 || Nat.eqb n 160.

Fixpoint trim_start (s : string) : string :=
  match s with
  | EmptyString => EmptyString
  | String c s' => if is_white_space c then trim_start s' else s
  end.

Definition digit_value (c : ascii) : option Z :=
  let n := Z.of_nat (nat_of_ascii c) in
  if (48 <=? n) && (n <=? 57) then Some (n - 48) else None.

(** The value of the longest prefix of decimal digits; [acc] is [None] until
    a digit has been read. *)
Fixpoint parse_digits (acc : option Z) (s : string) : option Z :=
  match s with
  | EmptyString => acc
  | String c s' =>
      match digit_value c with
      | Some d => parse_digits (Some (10 * default 0 acc + d)) s'
      | None => acc
      end
  end.

Definition parseInt (s : string) : JsNumber :=
  let s1 := trim_start s in
  let '(sign, s2) :=
    match s1 with
    | String "-"%char r => (-1, r)
    | String "+"%char r => (1, r)
    | _ => (1, s1)
    end in
  match parse_digits None s2 with
  | Some n => Num (sign * n)
  | None => NaN
  end.

(** ** JSON values and [JSON.stringify(value, null, 2)] *)

Inductive Json : Type :=
| JUndefined
| JNull
| JBool (b : bool)
| JNumber (n : JsNumber)
| JString (s : string)
| JArray (items : list Json)
| JObject (props : list (string * Json)).

Definition dquote : string := String (ascii_of_nat 34) EmptyString.

Definition hex_digit (n : nat) : ascii :=
  if Nat.ltb n 10 then ascii_of_nat (48 + n) else ascii_of_nat (87 + n).

(** One code unit inside a JSON string literal. *)
Definition quote_char (c : ascii) : string :=
  let n := nat_of_ascii c in
  if Nat.eqb n 34 then "\" +:+ dquote
  else if Nat.eqb n 92 then "\\"
  else if Nat.eqb n 8 then "\b"
  else if Nat.eqb n 9 then "\t"
  else if Nat.eqb n 10 then "\n"
  else if Nat.eqb n 12 then "\f"
  else if Nat.eqb n 13 then "\r"
  else if Nat.ltb n 32 then
    "\u00" +:+ String (hex_digit (Nat.div n 16)) (String (hex_digit (Nat.modulo n 16)) "")
  else String c "".

Fixpoint quote_chars (s : string) : string :=
  match s with
  | EmptyString => EmptyString
  | String c s' => quote_char c +:+ quote_chars s'
  end.

Definition QuoteJSONString (s : string) : string :=
  dquote +:+ quote_chars s +:+ dquote.

(** [SerializeJSONProperty] with a gap of two spaces; [indent] is the current
    indentation.  [None] stands for [undefined]: such a property is left out
    of an object and printed as [null] inside an array. *)
Fixpoint SerializeJSONProperty (indent : string) (v : Json) : option string :=
  let stepback := indent in
  let indent := indent +:+ "  " in
  let newline := String (ascii_of_nat 10) EmptyString in
  match v with
  | JUndefined => None
  | JNull => Some "null"
  | JBool b => Some (if b then "true" else "false")
  | JNumber NaN => Some "null"
  | JNumber (Num z) => Some (Number_toString z)
  | JString s => Some (QuoteJSONString s)
  | JArray items =>
      let partial :=
        List.map (fun x => default "null" (SerializeJSONProperty indent x)) items in
      match partial with
      | [] => Some "[]"
      | _ => Some ("[" +:+ newline +:+ indent
                   +:+ join ("," +:+ newline +:+ indent) partial
                   +:+ newline +:+ stepback +:+ "]")
      end
  | JObject props =>
      let partial :=
        (fix members (l : list (string * Json)) : list string :=
           match l with
           | [] => []
           | (k, x) :: l' =>
               match SerializeJSONProperty indent x with
               | Some str => (QuoteJSONString k +:+ ": " +:+ str) :: members l'
               | None => members l'
               end
           end) props in
      match partial with
      | [] => Some "{}"
      | _ => Some ("{" +:+ newline +:+ indent
                   +:+ join ("," +:+ newline +:+ indent) partial
                   +:+ newline +:+ stepback +:+ "}")
      end
  end.

(** [JSON.stringify(content, null, 2)]; [undefined] when [content] is. *)
Definition JSON_stringify (content : Json) : option string :=
  SerializeJSONProperty "" content.

(** ** Headers, bodies and responses *)

(** A [Headers] object: names are case-insensitive, kept in lower case.
    The runtime's [set] also refuses (TypeError) a value that holds NUL, LF
    or CR and trims white space around a value; [headers_set] stores the
    value as it is, so the properties of headers built from request or
    bucket data are stated for values that [set] takes as they are
    ([legal_header_value], [has_forbidden_byte]). *)
Abbreviation Headers := (gmap string string).

Definition headers_get (name : string) (h : Headers) : option string :=
  h !! lowercase name.

Definition headers_set (name value : string) (h : Headers) : Headers :=
  <[lowercase name := value]> h.

(** [new Headers(init)] for an object literal with distinct names. *)
Definition new_Headers (init : list (string * string)) : Headers :=
  fold_left (fun h nv => headers_set nv.1 nv.2 h) init ∅.

(** A stream of bytes, or [null]. *)
Definition Body : Type := option (list Byte.byte).

Inductive ResponseBody : Type :=
| EmptyBody
| TextBody (text : string)
| StreamBody (stream : Body).

Record Response : Type := new_Response {
  res_body : ResponseBody;
  res_status : Z;
  res_headers : Headers;
}.

Record Request : Type := {
  method : string;
  headers : Headers;
  (** [new URL(request.url).searchParams], decoded, in the order of the URL *)
  searchParams : list (string * string);
  body : Body;
}.

(** [URLSearchParams.prototype.get]: the first value of that name. *)
Fixpoint searchParams_get (name : string) (params : list (string * string)) : option string :=
  match params with
  | [] => None
  | (n, v) :: rest => if (n =? name)%string then Some v else searchParams_get name rest
  end.

Record URL : Type := { pathname : string }.

Record WorkerEvent : Type := {
  request : Request;
}.

(** ** The storage bucket *)

Record Date : Type := { toISOString : string }.

Record R2HTTPMetadata : Type := {
  md_contentType : option string;
  md_contentLanguage : option string;
  md_contentDisposition : option string;
  md_contentEncoding : option string;
  md_cacheControl : option string;
  md_cacheExpiry : option Date;
}.

Record R2Object : Type := {
  obj_key : string;
  obj_size : Z;
  obj_uploaded : Date;
  obj_httpMetadata : option R2HTTPMetadata;
  obj_body : Body;
}.

Record R2Objects : Type := {
  objects : list R2Object;
  truncated : bool;
  listed_cursor : option string;
  delimitedPrefixes : list string;
}.

Record R2ListOptions : Type := {
  limit : JsNumber;
  prefix : string;
  cursor : option string;
}.

(** What a [throw] carries: an [Error] with its message, or another value
    with its [String(...)] rendering. *)
Inductive JsThrown : Type :=
| ErrorObject (message : string)
| OtherValue (rendering : string).

Inductive Result (A : Type) : Type :=
| Returned (a : A)
| Thrown (e : JsThrown).
Arguments Returned {A} a.
Arguments Thrown {A} e.

(** The binding [env.WAKEWORD_TRAINING_BUCKET]: an external collaborator.
    Each operation returns or throws, and may change the bucket. *)
Class R2Bucket (B : Type) : Type := {
  r2_put : string -> Body -> B -> Result unit * B;
  r2_list : R2ListOptions -> B -> Result R2Objects * B;
  r2_get : string -> B -> Result (option R2Object) * B;
}.

Inductive BucketCall : Type :=
| PutCall (key : string) (value : Body)
| ListCall (options : R2ListOptions)
| GetCall (key : string).

(** The environment of one invocation: the bucket, the calls made to it so
    far, the console, and what [Date.now()] and
    [Math.random().toString(36)] answer. *)
Record World (B : Type) : Type := {
  bucket : B;
  calls : list BucketCall;
  console : list string;
  Date_now_value : Z;
  Math_random_base36 : string;
}.
Arguments bucket {B} w.
Arguments calls {B} w.
Arguments console {B} w.
Arguments Date_now_value {B} w.
Arguments Math_random_base36 {B} w.

(** ** A state-and-exception monad for the handlers *)

Definition M (B A : Type) : Type := World B -> Result A * World B.

#[global] Instance M_ret {B} : MRet (M B) :=
  fun A a w => (Returned a, w).

#[global] Instance M_bind {B} : MBind (M B) :=
  fun A C f m w =>
    match m w with
    | (Returned a, w') => f a w'
    | (Thrown e, w') => (Thrown e, w')
    end.

(** [try { m } catch (error) { handler error }] *)
Definition try_catch {B A} (m : M B A) (handler : JsThrown -> M B A) : M B A :=
  fun w =>
    match m w with
    | (Returned a, w') => (Returned a, w')
    | (Thrown e, w') => handler e w'
    end.

Definition Date_now {B} : M B Z :=
  fun w => (Returned (Date_now_value w), w).

Definition Math_random_toString36 {B} : M B string :=
  fun w => (Returned (Math_random_base36 w), w).

Definition console_log {B} (line : string) : M B unit :=
  fun w => (Returned tt,
            {| bucket := bucket w; calls := calls w; console := console w ++ [line];
               Date_now_value := Date_now_value w;
               Math_random_base36 := Math_random_base36 w |}).

(** The effect of one bucket operation [op]: performed on the bucket, and
    recorded in the list of calls. *)
Definition bucket_call {B A} (call : BucketCall) (op : B -> Result A * B) : M B A :=
  fun w =>
    let '(r, b') := op (bucket w) in
    (r, {| bucket := b'; calls := calls w ++ [call]; console := console w;
           Date_now_value := Date_now_value w;
           Math_random_base36 := Math_random_base36 w |}).

Definition bucket_put {B : Type} {bucketOps : R2Bucket B} (key : string) (value : Body) : M B unit :=
  bucket_call (PutCall key value) (r2_put key value).

Definition bucket_list {B : Type} {bucketOps : R2Bucket B} (options : R2ListOptions) : M B R2Objects :=
  bucket_call (ListCall options) (r2_list options).

Definition bucket_get {B : Type} {bucketOps : R2Bucket B} (key : string) : M B (option R2Object) :=
  bucket_call (GetCall key) (r2_get key).

(** [error instanceof Error ? error.message : String(error)] *)
Definition error_text (error : JsThrown) : string :=
  match error with
  | ErrorObject message => message
  | OtherValue rendering => rendering
  end.

(** ** Reference tables of [../data/demographics] *)

(** A plain object used as a lookup table: [Object.keys] (its own enumerable
    keys, in order) and the [in] operator, which also answers [true] for
    names inherited from the prototype chain. *)
Record JsObject : Type := {
  Object_keys : list string;
  js_in : string -> bool;
}.

(** The module [../data/demographics] is not part of the sources at hand;
    its three tables are parameters of the handlers.  [LEGACY_ACCENTS_at l]
    is [LEGACY_ACCENTS[l]]. *)
Class Demographics : Type := {
  AGES : JsObject;
  GENDERS : JsObject;
  LEGACY_ACCENTS : JsObject;
  LEGACY_ACCENTS_at : string -> JsObject;
}.

(** ** Constants of the service *)

Module TRIGGER_PATH.
Definition WAKE_WORD_TRAINING_UPLOAD : string := "/assist/wake_word/training_data/upload".
Definition WAKE_WORD_TRAINING_LIST : string := "/assist/wake_word/training_data/list".
Definition WAKE_WORD_TRAINING_DOWNLOAD : string := "/assist/wake_word/training_data/download".
End TRIGGER_PATH.

Definition WAKE_WORD_ALLOWED_CONTENT_TYPES : list string :=
  ["audio/webm"; "audio/ogg"; "audio/mp4"; "audio/wav"].
Definition WAKE_WORD_ALLOWED_NAMES : list string := ["hey_nexus"].
Definition NEGATIVE_WAKE_WORD_ALLOWED_NAMES : list string :=
  ["hey_lexus"; "hey_texas"; "texas"].
Definition WAKE_WORD_MAX_CONTENT_LENGTH : Z := 250 * 1024.

(** ** The response builder *)

Definition createResponse (content : Json) (status : option Z) : Response :=
  new_Response
    (match JSON_stringify content with
     | Some text => TextBody text
     | None => EmptyBody
     end)
    (default 400 status)
    (new_Headers [("Access-Control-Allow-Origin", "*");
                  ("Access-Control-Allow-Methods", "PUT");
                  ("Access-Control-Allow-Headers", "Content-Type");
                  ("Content-Type", "application/json;charset=UTF-8")]).

(** ** The upload handler *)

(** The value of [contentLengthHeaderValue && parseInt(contentLengthHeaderValue, 10)]:
    the header itself when it is falsy ([null] or the empty string), the
    parsed number otherwise. *)
Inductive ContentLength : Type :=
| CLnull
| CLempty
| CLnumber (n : JsNumber).

Definition contentLength_of (contentLengthHeaderValue : option string) : ContentLength :=
  match contentLengthHeaderValue with
  | None => CLnull
  | Some s => if (s =? "")%string then CLempty else CLnumber (parseInt s)
  end.

(** [!contentLength]: [null], the empty string, NaN and 0 are falsy. *)
Definition contentLength_falsy (c : ContentLength) : bool :=
  match c with
  | CLnull | CLempty | CLnumber NaN => true
  | CLnumber (Num z) => z =? 0
  end.

(** [contentLength > WAKE_WORD_MAX_CONTENT_LENGTH], evaluated on a truthy value. *)
Definition contentLength_gt (c : ContentLength) (bound : Z) : bool :=
  match c with
  | CLnumber n => js_gt n (Num bound)
  | CLnull | CLempty => false
  end.

(** The value inside a template literal.  (From 2^53 on the runtime prints
    the double that [parseInt] rounded to; that changes the text of the 413
    message only.) *)
Definition contentLength_text (c : ContentLength) : string :=
  match c with
  | CLnull => "null"
  | CLempty => ""
  | CLnumber n => JsNumber_toString n
  end.

(** [[...].filter((part) => part !== null && part !== "")] *)
Fixpoint filter_parts (parts : list (option string)) : list string :=
  match parts with
  | [] => []
  | None :: rest => filter_parts rest
  | Some p :: rest => if (p =? "")%string then filter_parts rest else p :: filter_parts rest
  end.

(** Lines 150 to 171: the storage key of a validated upload. *)
Definition storageKey (contentType wakeWord : string) (languageAccent : option string)
    (age gender : string) (cfRay : option string)
    (timestamp : Z) (randomBase36 : string) : string :=
  let isNegative := includes NEGATIVE_WAKE_WORD_ALLOWED_NAMES wakeWord in
  let keyExtension := replace_first "audio/" "" contentType in
  let randomString := js_substring 2 15 randomBase36 in
  let uniqueId := Number_toString timestamp +:+ "-" +:+ randomString in
  let identifier := or_default cfRay uniqueId in
  let filenameParts :=
    filter_parts [ (if isNegative then Some "negative" else None);
                   Some wakeWord;
                   or_null languageAccent;
                   or_null (Some age);
                   Some gender;
                   Some identifier ] in
  join "-" filenameParts +:+ "." +:+ keyExtension.

Section Handlers.
Context {B : Type} {bucketOps : R2Bucket B} {tables : Demographics}.

Definition message (text : string) : Json := JObject [("message", JString text)].

Definition handleUploadAudioFile (event : WorkerEvent) : M B Response :=
  let request := event.(request) in
  let contentType := split_head ";" <$> headers_get "content-type" request.(headers) in
  let contentLengthHeaderValue := headers_get "content-length" request.(headers) in
  let contentLength := contentLength_of contentLengthHeaderValue in
  let cfRay := headers_get "cf-ray" request.(headers) in
  let wakeWord := searchParams_get "wake_word" request.(searchParams) in
  let age := or_default (searchParams_get "age" request.(searchParams)) "" in
  let gender :=
    or_default (searchParams_get "gender" request.(searchParams)) "do_not_wish_to_say" in
  let language := searchParams_get "language" request.(searchParams) in
  let accent := searchParams_get "accent" request.(searchParams) in
  if negb (request.(method) =? "PUT")%string then
    mret (createResponse (message "Invalid method") (Some 405))
  else if negb (truthy contentType)
          || negb (includes WAKE_WORD_ALLOWED_CONTENT_TYPES (default "" contentType)) then
    mret (createResponse
            (message ("Invalid content-type, received: " +:+ default "undefined" contentType
                      +:+ ", allowed: " +:+ join "," WAKE_WORD_ALLOWED_CONTENT_TYPES))
            (Some 415))
  else if contentLength_falsy contentLength
          || contentLength_gt contentLength WAKE_WORD_MAX_CONTENT_LENGTH then
    mret (createResponse
            (message ("Invalid content-length, received: " +:+ contentLength_text contentLength
                      +:+ ", allowed [<" +:+ Number_toString WAKE_WORD_MAX_CONTENT_LENGTH +:+ "]"))
            (Some 413))
  else if negb (truthy wakeWord) then
    mret (createResponse (message "Invalid parameters: missing wake_word") None)
  else if negb (includes (WAKE_WORD_ALLOWED_NAMES ++ NEGATIVE_WAKE_WORD_ALLOWED_NAMES)
                  (default "" wakeWord)) then
    mret (createResponse
            (message ("Invalid wake word, received: " +:+ default "" wakeWord)) None)
  else if negb (js_in AGES age) then
    mret (createResponse
            (message ("Invalid age, received: " +:+ age +:+ ", allowed: "
                      +:+ join ", " (List.filter (fun k => negb (k =? "")%string)
                                       (Object_keys AGES))))
            None)
  else if negb (js_in GENDERS gender) then
    mret (createResponse
            (message ("Invalid gender, received: " +:+ gender +:+ ", allowed: "
                      +:+ join ", " (Object_keys GENDERS)))
            None)
  else
    let afterLanguage (languageAccent : option string) : M B Response :=
      timestamp ← Date_now;
      randomBase36 ← Math_random_toString36;
      let key :=
        storageKey (default "" contentType) (default "" wakeWord) languageAccent
          age gender cfRay timestamp randomBase36 in
      console_log key;;
      bucket_put key request.(body);;
      mret (createResponse (JObject [("message", JString "success"); ("key", JString key)])
              (Some 201)) in
    if truthy language || truthy accent then
      if negb (truthy language) || negb (truthy accent) then
        mret (createResponse
                (message "Both language and accent must be provided together") None)
      else
        let language := default "" language in
        let accent := default "" accent in
        if negb (js_in LEGACY_ACCENTS language) then
          mret (createResponse
                  (message ("Invalid language, received: " +:+ language +:+ ", allowed: "
                            +:+ join ", " (Object_keys LEGACY_ACCENTS)))
                  None)
        else if negb (js_in (LEGACY_ACCENTS_at language) accent) then
          mret (createResponse
                  (message ("Invalid accent for language " +:+ language +:+ ", received: "
                            +:+ accent +:+ ", allowed: "
                            +:+ join ", " (Object_keys (LEGACY_ACCENTS_at language))))
                  None)
        else afterLanguage (Some (language +:+ "_" +:+ accent))
    else afterLanguage None.

(** ** The list handler *)

Definition optional_string (o : option string) : Json :=
  match o with
  | Some s => JString s
  | None => JUndefined
  end.

Definition httpMetadata_json (m : option R2HTTPMetadata) : Json :=
  match m with
  | None => JUndefined
  | Some md =>
      JObject [("contentType", optional_string md.(md_contentType));
               ("contentLanguage", optional_string md.(md_contentLanguage));
               ("contentDisposition", optional_string md.(md_contentDisposition));
               ("contentEncoding", optional_string md.(md_contentEncoding));
               ("cacheControl", optional_string md.(md_cacheControl));
               ("cacheExpiry", optional_string (toISOString <$> md.(md_cacheExpiry)))]
  end.

Definition handleListFiles (event : WorkerEvent) : M B Response :=
  let searchParams := event.(request).(searchParams) in
  let limit := parseInt (or_default (searchParams_get "limit" searchParams) "1000") in
  let prefix := or_default (searchParams_get "prefix" searchParams) "" in
  let cursor := or_null (searchParams_get "cursor" searchParams) in
  try_catch
    (listed ← bucket_list {| limit := Math_min limit (Num 1000);
                             prefix := prefix;
                             cursor := cursor |};
     let objects :=
       List.map (fun obj =>
                   JObject [("key", JString obj.(obj_key));
                            ("size", JNumber (Num obj.(obj_size)));
                            ("uploaded", JString obj.(obj_uploaded).(toISOString));
                            ("httpMetadata", httpMetadata_json obj.(obj_httpMetadata))])
         listed.(objects) in
     mret (new_Response
             (match JSON_stringify
                      (JObject [("objects", JArray objects);
                                ("truncated", JBool listed.(truncated));
                                ("cursor", optional_string listed.(listed_cursor));
                                ("delimitedPrefixes",
                                 JArray (List.map JString listed.(delimitedPrefixes)))])
              with
              | Some text => TextBody text
              | None => EmptyBody
              end)
             200
             (new_Headers [("Access-Control-Allow-Origin", "*");
                           ("Access-Control-Allow-Methods", "GET");
                           ("Access-Control-Allow-Headers", "Content-Type");
                           ("Content-Type", "application/json;charset=UTF-8")])))
    (fun error =>
       mret (createResponse
               (JObject [("message", JString "Error listing files");
                         ("error", JString (error_text error))])
               (Some 500))).

(** ** The download handler *)

Definition handleDownloadFile (event : WorkerEvent) : M B Response :=
  let searchParams := event.(request).(searchParams) in
  let key := searchParams_get "key" searchParams in
  if negb (truthy key) then
    mret (createResponse (message "Missing required parameter: key") (Some 400))
  else
    let key := default "" key in
    try_catch
      (object ← bucket_get key;
       match object with
       | None => mret (createResponse (message ("File not found: " +:+ key)) (Some 404))
       | Some object =>
           let headers := (∅ : Headers) in
           let headers := headers_set "Access-Control-Allow-Origin" "*" headers in
           let headers := headers_set "Access-Control-Allow-Methods" "GET" headers in
           let headers := headers_set "Access-Control-Allow-Headers" "Content-Type" headers in
           let headers :=
             match object.(obj_httpMetadata) ≫= md_contentType with
             | Some contentType =>
                 if (contentType =? "")%string then headers
                 else headers_set "Content-Type" contentType headers
             | None => headers
             end in
           let headers :=
             headers_set "Content-Disposition"
               ("attachment; filename=" +:+ dquote +:+ key +:+ dquote) headers in
           let headers :=
             headers_set "Content-Length" (Number_toString object.(obj_size)) headers in
           mret (new_Response (StreamBody object.(obj_body)) 200 headers)
       end)
      (fun error =>
         mret (createResponse
                 (JObject [("message", JString "Error downloading file");
                           ("error", JString (error_text error))])
                 (Some 500))).

(** ** The dispatcher *)

Definition assistHandler (requestUrl : URL) (event : WorkerEvent) : M B Response :=
  if (event.(request).(method) =? "OPTIONS")%string then
    (* CORS preflight request *)
    mret (createResponse (JString "ok") (Some 200))
  else if (requestUrl.(pathname) =? TRIGGER_PATH.WAKE_WORD_TRAINING_UPLOAD)%string then
    handleUploadAudioFile event
  else if (requestUrl.(pathname) =? TRIGGER_PATH.WAKE_WORD_TRAINING_LIST)%string then
    handleListFiles event
  else if (requestUrl.(pathname) =? TRIGGER_PATH.WAKE_WORD_TRAINING_DOWNLOAD)%string then
    handleDownloadFile event
  else
    mret (createResponse (JString "Not Found") (Some 404)).
End Handlers.

(** ** Reading the upload handler's decisions off a request *)

Definition contentType_of (request : Request) : option string :=
  split_head ";" <$> headers_get "content-type" request.(headers).

Definition contentLength_value (request : Request) : ContentLength :=
  contentLength_of (headers_get "content-length" request.(headers)).

Definition cfRay_of (request : Request) : option string :=
  headers_get "cf-ray" request.(headers).

Definition wakeWord_of (request : Request) : option string :=
  searchParams_get "wake_word" request.(searchParams).

Definition age_of (request : Request) : string :=
  or_default (searchParams_get "age" request.(searchParams)) "".

Definition gender_of (request : Request) : string :=
  or_default (searchParams_get "gender" request.(searchParams)) "do_not_wish_to_say".

Definition language_of (request : Request) : option string :=
  searchParams_get "language" request.(searchParams).

Definition accent_of (request : Request) : option string :=
  searchParams_get "accent" request.(searchParams).

(** The value of the variable [languageAccent] at line 150. *)
Definition languageAccent_of (request : Request) : option string :=
  if truthy (language_of request) || truthy (accent_of request)
  then Some (default "" (language_of request) +:+ "_" +:+ default "" (accent_of request))
  else None.

(** The checks of lines 49 to 148, in the order the handler makes them. *)
Inductive UploadCheck : Type :=
| CheckMethod
| CheckContentType
| CheckContentLength
| CheckWakeWordPresent
| CheckWakeWordAllowed
| CheckAge
| CheckGender
| CheckLanguageAccentTogether
| CheckLanguage
| CheckAccent.

(** The status of the response that a failed check returns. *)
Definition check_status (c : UploadCheck) : Z :=
  match c with
  | CheckMethod => 405
  | CheckContentType => 415
  | CheckContentLength => 413
  | _ => 400
  end.

(** The first check of the handler that the request fails, if any. *)
Definition first_failed_check {tables : Demographics} (request : Request) : option UploadCheck :=
  if negb (request.(method) =? "PUT")%string then Some CheckMethod
  else if negb (truthy (contentType_of request))
          || negb (includes WAKE_WORD_ALLOWED_CONTENT_TYPES
                     (default "" (contentType_of request))) then Some CheckContentType
  else if contentLength_falsy (contentLength_value request)
          || contentLength_gt (contentLength_value request) WAKE_WORD_MAX_CONTENT_LENGTH
       then Some CheckContentLength
  else if negb (truthy (wakeWord_of request)) then Some CheckWakeWordPresent
  else if negb (includes (WAKE_WORD_ALLOWED_NAMES ++ NEGATIVE_WAKE_WORD_ALLOWED_NAMES)
                  (default "" (wakeWord_of request))) then Some CheckWakeWordAllowed
  else if negb (js_in AGES (age_of request)) then Some CheckAge
  else if negb (js_in GENDERS (gender_of request)) then Some CheckGender
  else if truthy (language_of request) || truthy (accent_of request) then
    if negb (truthy (language_of request)) || negb (truthy (accent_of request))
    then Some CheckLanguageAccentTogether
    else if negb (js_in LEGACY_ACCENTS (default "" (language_of request)))
    then Some CheckLanguage
    else if negb (js_in (LEGACY_ACCENTS_at (default "" (language_of request)))
                    (default "" (accent_of request)))
    then Some CheckAccent
    else None
  else None.

(** The identifier of line 159 and the key of line 171, for a request that
    passed every check. *)
Definition identifier_of (request : Request) (timestamp : Z) (randomBase36 : string) : string :=
  or_default (cfRay_of request)
    (Number_toString timestamp +:+ "-" +:+ js_substring 2 15 randomBase36).

Definition upload_key (request : Request) (timestamp : Z) (randomBase36 : string) : string :=
  storageKey (default "" (contentType_of request)) (default "" (wakeWord_of request))
    (languageAccent_of request) (age_of request) (gender_of request) (cfRay_of request)
    timestamp randomBase36.

(** The world after a bucket call and after a line on the console. *)
Definition after_call {B} (call : BucketCall) (b' : B) (w : World B) : World B :=
  {| bucket := b'; calls := calls w ++ [call]; console := console w;
     Date_now_value := Date_now_value w; Math_random_base36 := Math_random_base36 w |}.

Definition after_log {B} (line : string) (w : World B) : World B :=
  {| bucket := bucket w; calls := calls w; console := console w ++ [line];
     Date_now_value := Date_now_value w; Math_random_base36 := Math_random_base36 w |}.

(** What the handler does with a request that passes every check: it logs
    the key, calls [put] once, and answers 201 unless [put] throws. *)
Definition upload_outcome {B : Type} {bucketOps : R2Bucket B} (event : WorkerEvent) (w : World B) : Result Response * World B :=
  let key := upload_key event.(request) (Date_now_value w) (Math_random_base36 w) in
  let value := event.(request).(body) in
  match r2_put key value (bucket w) with
  | (Returned _, b') =>
      (Returned (createResponse (JObject [("message", JString "success"); ("key", JString key)])
                   (Some 201)),
       after_call (PutCall key value) b' (after_log key w))
  | (Thrown e, b') =>
      (Thrown e, after_call (PutCall key value) b' (after_log key w))
  end.

(** The options of the one [list] call that the list handler makes. *)
Definition list_options_of (request : Request) : R2ListOptions :=
  {| limit := Math_min (parseInt (or_default (searchParams_get "limit" request.(searchParams))
                                    "1000"))
                (Num 1000);
     prefix := or_default (searchParams_get "prefix" request.(searchParams)) "";
     cursor := or_null (searchParams_get "cursor" request.(searchParams)) |}.

(** The content of the 500 responses of the list and download handlers. *)
Definition backend_error_content (text : string) (error : JsThrown) : Json :=
  JObject [("message", JString text); ("error", JString (error_text error))].

(** ** The storage key in the words of the specification *)

(** The subtype of a media type: the text after the first slash. *)
Fixpoint subtype (contentType : string) : string :=
  match contentType with
  | EmptyString => EmptyString
  | String c rest => if Ascii.eqb c "/" then rest else subtype rest
  end.

(** A part that is given: present and not the empty string. *)
Definition given (part : option string) : option string :=
  match part with
  | Some "" => None
  | other => other
  end.

(** The ordered parts: the negative marker, the wake word, language and
    accent joined by an underscore when both are given, the age, the gender
    and the identifier; absent and empty parts are left out. *)
Definition spec_parts (in_negative_list : bool) (wake_word : string)
    (language accent : option string) (age gender identifier : string) : list string :=
  omap given
    [ (if in_negative_list then Some "negative" else None);
      Some wake_word;
      match given language, given accent with
      | Some l, Some a => Some (l +:+ "_" +:+ a)
      | _, _ => None
      end;
      Some age;
      Some gender;
      Some identifier ].

Definition spec_key (in_negative_list : bool) (wake_word : string)
    (language accent : option string) (age gender identifier contentType : string) : string :=
  join "-" (spec_parts in_negative_list wake_word language accent age gender identifier)
  +:+ "." +:+ subtype contentType.

(** ** Two buckets and a set of tables to run the handlers on *)

(** A bucket held in memory: the stored objects, most recent first. *)
Definition MemoryBucket : Type := list R2Object.

Definition memory_put (key : string) (value : Body) (b : MemoryBucket)
  : Result unit * MemoryBucket :=
  (Returned tt,
   {| obj_key := key;
      obj_size := Z.of_nat (length (default [] value));
      obj_uploaded := {| toISOString := "2024-05-01T12:00:00.000Z" |};
      obj_httpMetadata := None;
      obj_body := value |}
   :: List.filter (fun o => negb (o.(obj_key) =? key)%string) b).

Definition memory_list (options : R2ListOptions) (b : MemoryBucket)
  : Result R2Objects * MemoryBucket :=
  let matching := List.filter (fun o => String.prefix options.(prefix) o.(obj_key)) b in
  let page :=
    match options.(limit) with
    | Num n => firstn (Z.to_nat n) matching
    | NaN => matching
    end in
  (Returned {| objects := page;
               truncated := Nat.ltb (length page) (length matching);
               listed_cursor := None;
               delimitedPrefixes := [] |}, b).

Definition memory_get (key : string) (b : MemoryBucket)
  : Result (option R2Object) * MemoryBucket :=
  (Returned (List.find (fun o => (o.(obj_key) =? key)%string) b), b).

#[global] Instance MemoryBucket_R2 : R2Bucket MemoryBucket := {
  r2_put := memory_put;
  r2_list := memory_list;
  r2_get := memory_get;
}.

(** A bucket whose every operation throws. *)
Inductive OfflineBucket : Type := offline.

Definition offline_error : JsThrown := ErrorObject "Network connection lost.".

#[global] Instance OfflineBucket_R2 : R2Bucket OfflineBucket := {
  r2_put := fun _ _ b => (Thrown offline_error, b);
  r2_list := fun _ b => (Thrown offline_error, b);
  r2_get := fun _ b => (Thrown offline_error, b);
}.

(** A table without a prototype: [in] answers for its own keys only. *)
Definition bare_table (keys : list string) : JsObject :=
  {| Object_keys := keys; js_in := includes keys |}.

(** Tables in the shape the handlers expect: the empty age and
    [do_not_wish_to_say] are keys, accents are listed per language. *)
Definition sample_demographics : Demographics := {|
  AGES := bare_table [""; "teens"; "twenties"; "thirties"; "fourties"; "fifties"];
  GENDERS := bare_table ["male"; "female"; "non_binary"; "do_not_wish_to_say"];
  LEGACY_ACCENTS := bare_table ["en"; "de"];
  LEGACY_ACCENTS_at := fun language =>
    if (language =? "en")%string then bare_table ["us"; "england"; "australia"]
    else if (language =? "de")%string then bare_table ["germany"; "austria"]
    else bare_table [];
|}.

Definition sample_world {B} (b : B) : World B :=
  {| bucket := b; calls := []; console := [];
     Date_now_value := 1714564800000;
     Math_random_base36 := "0.k3j9x0q2m7f" |}.

Definition sample_audio : Body := Some [Byte.x1a; Byte.x45; Byte.xdf; Byte.xa3].

(** [PUT .../upload?<query>] with the given headers. *)
Definition upload_request (hdrs : list (string * string)) (query : list (string * string))
  : WorkerEvent :=
  {| request := {| method := "PUT"; headers := new_Headers hdrs;
                   searchParams := query; body := sample_audio |} |}.

Definition get_request (query : list (string * string)) : WorkerEvent :=
  {| request := {| method := "GET"; headers := ∅; searchParams := query; body := None |} |}.

Definition webm_headers (contentLength : string) : list (string * string) :=
  [("Content-Type", "audio/webm"); ("Content-Length", contentLength)].

(** A valid upload of a negative sample, with a trace header. *)
Definition traced_upload : WorkerEvent :=
  upload_request
    [("Content-Type", "audio/webm"); ("Content-Length", "3000");
     ("CF-Ray", "8a1b2c3d4e5f-AMS")]
    [("wake_word", "texas"); ("language", "en"); ("accent", "us"); ("age", "teens")].

(** The same world a while later: another clock, another random number. *)
Definition later_world {B} (b : B) : World B :=
  {| bucket := b; calls := []; console := [];
     Date_now_value := 1714564860123;
     Math_random_base36 := "0.9zq41hc8v2k" |}.

(** A world whose bucket holds one recording with its content type. *)
Definition stored_sample : R2Object :=
  {| obj_key := "hey_nexus-en_us-teens-female-8a1b2c3d4e5f-AMS.webm";
     obj_size := 4;
     obj_uploaded := {| toISOString := "2024-05-01T12:00:00.000Z" |};
     obj_httpMetadata :=
       Some {| md_contentType := Some "audio/webm"; md_contentLanguage := None;
               md_contentDisposition := None; md_contentEncoding := None;
               md_cacheControl := None; md_cacheExpiry := None |};
     obj_body := sample_audio |}.

Definition stocked_world : World MemoryBucket := sample_world [stored_sample].

(** ** The checks of the upload handler, one by one *)


(** ** Header values that the runtime takes as they are *)

(** NUL, LF and CR: a value holding one of them makes [Headers.set] throw. *)
Definition forbidden_byte (c : ascii) : bool :=
  let n := nat_of_ascii c in
  Nat.eqb n 0 || Nat.eqb n 10 || Nat.eqb n 13.

Fixpoint has_forbidden_byte (s : string) : bool :=
  match s with
  | EmptyString => false
  | String c s' => forbidden_byte c || has_forbidden_byte s'
  end.

(** Tab, LF, CR and space: trimmed from both ends of a value. *)
Definition http_whitespace (c : ascii) : bool :=
  let n := nat_of_ascii c in
  Nat.eqb n 9 || Nat.eqb n 10 || Nat.eqb n 13 || Nat.eqb n 32.

Definition starts_with_whitespace (s : string) : bool :=
  match s with
  | EmptyString => false
  | String c _ => http_whitespace c
  end.

Fixpoint ends_with_whitespace (s : string) : bool :=
  match s with
  | EmptyString => false
  | String c EmptyString => http_whitespace c
  | String _ s' => ends_with_whitespace s'
  end.

(** A value that [Headers.set] stores unchanged and without throwing. *)
Definition legal_header_value (s : string) : bool :=
  negb (has_forbidden_byte s)
  && negb (starts_with_whitespace s)
  && negb (ends_with_whitespace s).

(** [object.httpMetadata?.contentType], the empty string when there is none. *)
Definition stored_contentType (object : R2Object) : string :=
  default "" (object.(obj_httpMetadata) ≫= md_contentType).

(** ** Tables written as object literals *)

(** The names every object literal inherits from [Object.prototype]. *)
Definition Object_prototype_names : list string :=
  ["constructor"; "__defineGetter__"; "__defineSetter__"; "hasOwnProperty";
   "__lookupGetter__"; "__lookupSetter__"; "isPrototypeOf"; "propertyIsEnumerable";
   "toString"; "valueOf"; "__proto__"; "toLocaleString"].

(** A table written as an object literal: [in] also finds inherited names. *)
Definition literal_table (keys : list string) : JsObject :=
  {| Object_keys := keys;
     js_in := fun k => includes keys k || includes Object_prototype_names k |}.

(** The sample tables as object literals (the accents as before). *)
Definition literal_demographics : Demographics := {|
  AGES := literal_table [""; "teens"; "twenties"; "thirties"; "fourties"; "fifties"];
  GENDERS := literal_table ["male"; "female"; "non_binary"; "do_not_wish_to_say"];
  LEGACY_ACCENTS := bare_table ["en"; "de"];
  LEGACY_ACCENTS_at := fun language =>
    if (language =? "en")%string then bare_table ["us"; "england"; "australia"]
    else if (language =? "de")%string then bare_table ["germany"; "austria"]
    else bare_table [];
|}.

(** * Properties *)

(** ** The upload handler, check by check *)

Section UploadFacts.
Context {B : Type} {bucketOps : R2Bucket B} {tables : Demographics}.

(** A request that fails a check gets that check's response, and the world
    is left as it was. *)
Lemma upload_rejected (event : WorkerEvent) (w : World B) (c : UploadCheck) :
  first_failed_check event.(request) = Some c ->
  exists content,
    handleUploadAudioFile event w
    = (Returned (createResponse content (Some (check_status c))), w).
Proof.
  unfold first_failed_check, handleUploadAudioFile,
    contentType_of, contentLength_value, wakeWord_of, age_of, gender_of,
    language_of, accent_of.
  repeat match goal with
         | |- context [if ?b then _ else _] =>
             destruct b; [intros [= <-]; eexists; reflexivity|]
         end.
  all: try discriminate.
  repeat match goal with
         | |- context [if ?b then _ else _] =>
             destruct b; [try (intros [= <-]; eexists; reflexivity)|]
         end.
  all: try discriminate.
Qed.
Lemma upload_accepted (event : WorkerEvent) (w : World B) :
  first_failed_check event.(request) = None ->
  handleUploadAudioFile event w = upload_outcome event w.
Proof.
  unfold first_failed_check, handleUploadAudioFile, upload_outcome, upload_key,
    languageAccent_of, contentType_of, contentLength_value, wakeWord_of, age_of,
    gender_of, language_of, accent_of, cfRay_of.
  repeat match goal with
         | |- context [if ?b then _ else _] =>
             destruct b eqn:?; [discriminate|]
         end.
  destruct (truthy (searchParams_get "language" _) || truthy (searchParams_get "accent" _)) eqn:E.
  - repeat match goal with
           | |- context [if negb ?b then _ else _] =>
               destruct (negb b) eqn:?; [discriminate|]
           | |- context [if ?b || ?c then _ else _] =>
               destruct (b || c) eqn:?; [discriminate|]
           end.
    intros _. unfold mbind, M_bind, mret, M_ret, Date_now, Math_random_toString36,
      console_log, bucket_put, bucket_call, after_call, after_log; simpl.
    destruct (r2_put _ _ _) as [[[]|e] b']; reflexivity.
  - intros _. unfold mbind, M_bind, mret, M_ret, Date_now, Math_random_toString36,
      console_log, bucket_put, bucket_call, after_call, after_log; simpl.
    destruct (r2_put _ _ _) as [[[]|e] b']; reflexivity.
Qed.
Lemma includes_In (l : list string) (x : string) :
  includes l x = true <-> In x l.
Proof.
  induction l as [|y l IH]; simpl.
  - split; [discriminate | tauto].
  - rewrite orb_true_iff, IH, String.eqb_eq. tauto.
Qed.

Lemma allowed_contentType_truthy (ct : string) :
  includes WAKE_WORD_ALLOWED_CONTENT_TYPES ct = true -> truthy (Some ct) = true.
Proof.
  intros Hin. apply includes_In in Hin. simpl in Hin.
  destruct Hin as [<-|[<-|[<-|[<-|[]]]]]; reflexivity.
Qed.

(** The handler's content-length test, in terms of the header. *)
Lemma contentLength_rejected_iff (header : option string) :
  contentLength_falsy (contentLength_of header)
  || contentLength_gt (contentLength_of header) WAKE_WORD_MAX_CONTENT_LENGTH = true
  <-> header = None
      \/ exists s, header = Some s
           /\ (parseInt s = NaN \/ parseInt s = Num 0
               \/ exists n, parseInt s = Num n /\ WAKE_WORD_MAX_CONTENT_LENGTH < n).
Proof.
  unfold contentLength_of. destruct header as [s|]; [|simpl; tauto].
  destruct (String.eqb_spec s "") as [->|Hne]; simpl.
  - split; [intros _|reflexivity]. right. exists "". split; [reflexivity|]. left. reflexivity.
  - destruct (parseInt s) as [|z] eqn:Hp; simpl.
    + split; [intros _|reflexivity]. right. exists s. rewrite Hp. tauto.
    + rewrite orb_true_iff, Z.eqb_eq, Z.gtb_ltb, Z.ltb_lt. split.
      * intros [->|Hgt]; right; exists s; rewrite Hp; split; try reflexivity.
        -- right; left; reflexivity.
        -- right; right. exists z. split; [reflexivity|exact Hgt].
      * intros [[=]|(s' & [= <-] & [Hn|[Hz|(n & Hn & Hlt)]])]; rewrite Hp in *.
        -- discriminate.
        -- injection Hz as ->. left; reflexivity.
        -- injection Hn as ->. right; exact Hlt.
Qed.

(** With method PUT and an allowed content type, the content-length check
    is the one that decides. *)
Lemma content_length_fails (request : Request) (ct : string) :
  request.(method) = "PUT" ->
  contentType_of request = Some ct ->
  includes WAKE_WORD_ALLOWED_CONTENT_TYPES ct = true ->
  contentLength_falsy (contentLength_value request)
  || contentLength_gt (contentLength_value request) WAKE_WORD_MAX_CONTENT_LENGTH = true ->
  first_failed_check request = Some CheckContentLength.
Proof.
  intros Hm Hct Hin Hcl. unfold first_failed_check.
  rewrite Hm, Hct. simpl default. rewrite Hin, (allowed_contentType_truthy ct Hin), Hcl.
  reflexivity.
Qed.

Lemma content_length_passes (request : Request) (ct : string) :
  request.(method) = "PUT" ->
  contentType_of request = Some ct ->
  includes WAKE_WORD_ALLOWED_CONTENT_TYPES ct = true ->
  contentLength_falsy (contentLength_value request)
  || contentLength_gt (contentLength_value request) WAKE_WORD_MAX_CONTENT_LENGTH = false ->
  (forall c, first_failed_check request = Some c -> check_status c = 400)
  /\ (truthy (wakeWord_of request) = false ->
      first_failed_check request = Some CheckWakeWordPresent).
Proof.
  intros Hm Hct Hin Hcl. unfold first_failed_check.
  rewrite Hm, Hct. simpl default. rewrite Hin, (allowed_contentType_truthy ct Hin), Hcl.
  simpl. split.
  - intros c.
    repeat match goal with
           | |- context [if ?b then _ else _] => destruct b; [intros [= <-]; reflexivity|]
           end.
    all: try discriminate.
    repeat match goal with
           | |- context [if ?b then _ else _] => destruct b; [try (intros [= <-]; reflexivity)|]
           end.
    all: discriminate.
  - intros ->. reflexivity.
Qed.
Lemma upload_missing_wake_word (event : WorkerEvent) (w : World B) :
  first_failed_check event.(request) = Some CheckWakeWordPresent ->
  handleUploadAudioFile event w
  = (Returned (createResponse (message "Invalid parameters: missing wake_word") None), w).
Proof.
  unfold first_failed_check, handleUploadAudioFile,
    contentType_of, contentLength_value, wakeWord_of, age_of, gender_of,
    language_of, accent_of.
  repeat match goal with
         | |- context [if ?b then _ else _] =>
             destruct b; [first [discriminate | reflexivity]|]
         end.
  all: try discriminate.
  repeat match goal with
         | |- context [if ?b then _ else _] =>
             destruct b; [try discriminate|]
         end.
  all: discriminate.
Qed.

(** C1, as amended.  For an upload request with method PUT and an allowed
    content type: when the Content-Length header is absent, or [parseInt]
    of it is NaN or zero, or the parsed value exceeds 256000, the handler
    returns a response with status 413 and leaves the world as it was; when
    the header parses as a positive integer of at most 256000, the handler
    never answers 413, and a request without a wake word gets the 400
    response of the wake-word check. *)
Theorem C1_content_length_check (event : WorkerEvent) (w : World B) (ct : string) :
  event.(request).(method) = "PUT" ->
  contentType_of event.(request) = Some ct ->
  includes WAKE_WORD_ALLOWED_CONTENT_TYPES ct = true ->
  let header := headers_get "content-length" event.(request).(headers) in
  ((header = None
    \/ exists s, header = Some s
         /\ (parseInt s = NaN \/ parseInt s = Num 0
             \/ exists n, parseInt s = Num n /\ 256000 < n)) ->
   exists content,
     handleUploadAudioFile event w = (Returned (createResponse content (Some 413)), w))
  /\ (forall s n,
        header = Some s -> parseInt s = Num n -> 0 < n <= 256000 ->
        (forall r w', handleUploadAudioFile event w = (Returned r, w') -> res_status r <> 413)
        /\ (truthy (wakeWord_of event.(request)) = false ->
            handleUploadAudioFile event w
            = (Returned (createResponse (message "Invalid parameters: missing wake_word") None),
               w))).
Proof.
  intros Hm Hct Hin header. split.
  - intros Hbad. apply contentLength_rejected_iff in Hbad.
    apply (upload_rejected event w CheckContentLength).
    apply (content_length_fails _ ct); assumption.
  - intros s n Hs Hp Hn.
    assert (Hok : contentLength_falsy (contentLength_value event.(request))
                  || contentLength_gt (contentLength_value event.(request))
                       WAKE_WORD_MAX_CONTENT_LENGTH = false).
    { apply not_true_is_false. intros Hbad. apply contentLength_rejected_iff in Hbad.
      fold header in Hbad. rewrite Hs in Hbad.
      destruct Hbad as [[=]|(s' & [= <-] & Hbad)]. rewrite Hp in Hbad.
      destruct Hbad as [[=]|[[= ->]|(n' & [= <-] & Hlt)]];
        unfold WAKE_WORD_MAX_CONTENT_LENGTH in *; lia. }
    destruct (content_length_passes _ ct Hm Hct Hin Hok) as [Hstatus Hwake]. split.
    + intros r w' Hrun.
      destruct (first_failed_check event.(request)) as [c|] eqn:Hc.
      * destruct (upload_rejected event w c Hc) as [content Hrej].
        rewrite Hrej in Hrun. injection Hrun as <- <-. simpl.
        rewrite (Hstatus c eq_refl). discriminate.
      * rewrite (upload_accepted event w Hc) in Hrun. unfold upload_outcome in Hrun.
        destruct (r2_put _ _ _) as [[[]|e] b']; [|discriminate].
        injection Hrun as <- <-. simpl. discriminate.
    + intros Hmissing. apply upload_missing_wake_word. apply Hwake, Hmissing.
Qed.
End UploadFacts.

Lemma C1_content_length_check_witness :
  (exists content,
     handleUploadAudioFile (tables := sample_demographics)
       (upload_request (webm_headers "300000") [("wake_word", "hey_nexus")])
       (sample_world ([] : MemoryBucket))
     = (Returned (createResponse content (Some 413)), sample_world []))
  /\ handleUploadAudioFile (tables := sample_demographics)
       (upload_request (webm_headers "1024") []) (sample_world ([] : MemoryBucket))
     = (Returned (createResponse (message "Invalid parameters: missing wake_word") None),
        sample_world []).
Proof.
  split.
  - apply (C1_content_length_check
             (upload_request (webm_headers "300000") [("wake_word", "hey_nexus")])
             (sample_world []) "audio/webm");
      [reflexivity | vm_compute; reflexivity | reflexivity |].
    right. exists "300000". split; [vm_compute; reflexivity|].
    right. right. exists 300000. split; [reflexivity | lia].
  - apply (C1_content_length_check (upload_request (webm_headers "1024") [])
             (sample_world []) "audio/webm") with (s := "1024") (n := 1024);
      [reflexivity | vm_compute; reflexivity | reflexivity
      | vm_compute; reflexivity | reflexivity | lia | reflexivity].
Defined.

(** C1, as stated, fails: a Content-Length of [-5] does not parse as a
    positive integer, yet the handler does not answer 413 (it stores the
    body and answers 201). *)
Lemma C1_counterexample :
  ~ (forall (event : WorkerEvent) (w : World MemoryBucket) (ct : string),
        event.(request).(method) = "PUT" ->
        contentType_of event.(request) = Some ct ->
        includes WAKE_WORD_ALLOWED_CONTENT_TYPES ct = true ->
        ~ (exists s n,
              headers_get "content-length" event.(request).(headers) = Some s
              /\ parseInt s = Num n /\ 0 < n) ->
        exists content,
          handleUploadAudioFile (tables := sample_demographics) event w
          = (Returned (createResponse content (Some 413)), w)).
Proof.
  intros claim.
  destruct (claim (upload_request (webm_headers "-5") [("wake_word", "hey_nexus")])
              (sample_world []) "audio/webm") as [content Hrun];
    [reflexivity | vm_compute; reflexivity | reflexivity | |].
  - intros (s & n & Hs & Hp & Hn). vm_compute in Hs. injection Hs as <-.
    vm_compute in Hp. injection Hp as <-. lia.
  - apply (f_equal (fun out => match out.1 with
                               | Returned r => res_status r
                               | Thrown _ => 0
                               end)) in Hrun.
    vm_compute in Hrun. discriminate.
Qed.

(** ** The storage key *)

Lemma truthy_Some (o : option string) :
  truthy o = true -> exists s, o = Some s /\ s <> "".
Proof.
  destruct o as [s|]; [|discriminate]. simpl.
  destruct (String.eqb_spec s ""); [discriminate|]. intros _. exists s. split; [reflexivity|assumption].
Qed.

Lemma append_nonempty_r (a b : string) : b <> "" -> a +:+ b <> "".
Proof. destruct a; simpl; [tauto | discriminate]. Qed.

Lemma or_default_nonempty (o : option string) (d : string) :
  d <> "" -> or_default o d <> "".
Proof.
  intros Hd. destruct o as [s|]; simpl; [|exact Hd].
  destruct (String.eqb_spec s ""); assumption.
Qed.

Lemma gender_of_nonempty (request : Request) : gender_of request <> "".
Proof. apply or_default_nonempty. discriminate. Qed.

Lemma identifier_of_nonempty (request : Request) (timestamp : Z) (randomBase36 : string) :
  identifier_of request timestamp randomBase36 <> "".
Proof.
  apply or_default_nonempty, append_nonempty_r. discriminate.
Qed.

(** For an allowed content type, removing ["audio/"] leaves the subtype. *)
Lemma keyExtension_subtype (ct : string) :
  includes WAKE_WORD_ALLOWED_CONTENT_TYPES ct = true ->
  replace_first "audio/" "" ct = subtype ct.
Proof.
  intros Hin. apply includes_In in Hin. simpl in Hin.
  destruct Hin as [<-|[<-|[<-|[<-|[]]]]]; reflexivity.
Qed.

Section KeyFacts.
Context {tables : Demographics}.

(** What a request that passes every check looks like. *)
Lemma valid_upload_facts (request : Request) :
  first_failed_check request = None ->
  request.(method) = "PUT"
  /\ (exists ct, contentType_of request = Some ct
                 /\ includes WAKE_WORD_ALLOWED_CONTENT_TYPES ct = true)
  /\ (exists ww, wakeWord_of request = Some ww
                 /\ includes (WAKE_WORD_ALLOWED_NAMES ++ NEGATIVE_WAKE_WORD_ALLOWED_NAMES) ww
                    = true)
  /\ js_in AGES (age_of request) = true
  /\ js_in GENDERS (gender_of request) = true
  /\ truthy (language_of request) = truthy (accent_of request).
Proof.
  unfold first_failed_check.
  destruct (String.eqb_spec request.(method) "PUT") as [Hm|]; cbn [negb orb]; [|discriminate].
  destruct (truthy (contentType_of request)) eqn:Hct; cbn [negb orb]; [|discriminate].
  destruct (includes WAKE_WORD_ALLOWED_CONTENT_TYPES (default "" (contentType_of request)))
    eqn:Hin; cbn [negb orb]; [|discriminate].
  destruct (contentLength_falsy _ || contentLength_gt _ _); [discriminate|].
  destruct (truthy (wakeWord_of request)) eqn:Hww; cbn [negb orb]; [|discriminate].
  destruct (includes (WAKE_WORD_ALLOWED_NAMES ++ NEGATIVE_WAKE_WORD_ALLOWED_NAMES)
              (default "" (wakeWord_of request))) eqn:Hwin; cbn [negb orb]; [|discriminate].
  destruct (js_in AGES _) eqn:Hage; cbn [negb orb]; [|discriminate].
  destruct (js_in GENDERS _) eqn:Hgender; cbn [negb orb]; [|discriminate].
  intros Hla. repeat split; try assumption.
  - destruct (truthy_Some _ Hct) as (ct & Hs & _). rewrite Hs in Hin. eauto.
  - destruct (truthy_Some _ Hww) as (ww & Hs & _). rewrite Hs in Hwin. eauto.
  - destruct (truthy (language_of request)), (truthy (accent_of request));
      simpl in Hla; try reflexivity; discriminate.
Qed.

(** The parts the handler joins are the parts the specification lists. *)
Lemma filenameParts_spec (neg : bool) (ww age gender identifier : string)
    (language accent : option string) :
  truthy language = truthy accent ->
  filter_parts [ (if neg then Some "negative" else None);
                 Some ww;
                 or_null (if truthy language || truthy accent
                          then Some (default "" language +:+ "_" +:+ default "" accent)
                          else None);
                 or_null (Some age);
                 Some gender;
                 Some identifier ]
  = spec_parts neg ww language accent age gender identifier.
Proof.
  intros Hla. unfold spec_parts.
  destruct language as [[|c l]|], accent as [[|d a]|]; try discriminate Hla;
    destruct neg, ww, age, gender, identifier; try reflexivity.
  all: simpl; destruct l; reflexivity.
Qed.

(** The key the handler computes is the key of the specification. *)
Lemma upload_key_spec (request : Request) (timestamp : Z) (randomBase36 : string)
    (ct ww : string) :
  first_failed_check request = None ->
  contentType_of request = Some ct ->
  wakeWord_of request = Some ww ->
  upload_key request timestamp randomBase36
  = spec_key (includes NEGATIVE_WAKE_WORD_ALLOWED_NAMES ww) ww
      (language_of request) (accent_of request) (age_of request) (gender_of request)
      (identifier_of request timestamp randomBase36) ct.
Proof.
  intros Hvalid Hct Hww.
  destruct (valid_upload_facts request Hvalid)
    as (_ & (ct' & Hct' & Hin) & _ & _ & _ & Hla).
  rewrite Hct in Hct'. injection Hct' as <-.
  unfold upload_key, storageKey, spec_key, languageAccent_of.
  rewrite Hct, Hww. simpl default.
  rewrite (keyExtension_subtype ct Hin).
  fold (identifier_of request timestamp randomBase36).
  rewrite (filenameParts_spec _ _ _ _ _ _ _ Hla). reflexivity.
Qed.
End KeyFacts.

Lemma filter_parts_app (l1 l2 : list (option string)) :
  filter_parts (l1 ++ l2) = (filter_parts l1 ++ filter_parts l2)%list.
Proof.
  induction l1 as [|[p|] l1 IH]; simpl; [reflexivity| |exact IH].
  destruct (p =? "")%string; simpl; congruence.
Qed.

Lemma filter_parts_nonempty (p : string) (rest : list (option string)) :
  p <> "" -> filter_parts (Some p :: rest) = p :: filter_parts rest.
Proof.
  intros Hp. simpl. destruct (String.eqb_spec p ""); [contradiction|reflexivity].
Qed.

(** The last two parts of every key are the gender and the identifier. *)
Lemma upload_key_tail (request : Request) (timestamp : Z) (randomBase36 : string) :
  exists front ext,
    upload_key request timestamp randomBase36
    = join "-" (front ++ [gender_of request; identifier_of request timestamp randomBase36])
      +:+ "." +:+ ext.
Proof.
  unfold upload_key, storageKey.
  fold (identifier_of request timestamp randomBase36).
  eexists (filter_parts [_; _; _; _]), _.
  change [?a; ?b; ?c; ?d; ?e; ?f] with ([a; b; c; d] ++ [e; f])%list.
  rewrite filter_parts_app.
  rewrite (filter_parts_nonempty (gender_of request)) by apply gender_of_nonempty.
  rewrite (filter_parts_nonempty (identifier_of request timestamp randomBase36))
    by apply identifier_of_nonempty.
  reflexivity.
Qed.

(** A key starts with ["negative-"] exactly for the wake words of the
    negative list. *)
Lemma upload_key_negative (request : Request) (timestamp : Z) (randomBase36 : string)
    (ww : string) :
  wakeWord_of request = Some ww ->
  includes (WAKE_WORD_ALLOWED_NAMES ++ NEGATIVE_WAKE_WORD_ALLOWED_NAMES) ww = true ->
  String.prefix "negative-" (upload_key request timestamp randomBase36)
  = includes NEGATIVE_WAKE_WORD_ALLOWED_NAMES ww.
Proof.
  intros Hww Hin. unfold upload_key, storageKey. rewrite Hww. simpl default.
  change [?a; ?b; ?c; ?d; ?e; ?f] with ([a; b] ++ [c; d; e; f])%list.
  rewrite filter_parts_app.
  generalize (filter_parts [or_null (languageAccent_of request);
                            or_null (Some (age_of request));
                            Some (gender_of request);
                            Some (or_default (cfRay_of request)
                                    (Number_toString timestamp +:+ "-"
                                     +:+ js_substring 2 15 randomBase36))]).
  generalize (replace_first "audio/" "" (default "" (contentType_of request))).
  intros ext tail.
  apply includes_In in Hin. simpl in Hin.
  destruct Hin as [<-|[<-|[<-|[<-|[]]]]]; destruct tail; reflexivity.
Qed.

Section UploadClaims.
Context {B : Type} {bucketOps : R2Bucket B} {tables : Demographics}.

(** A request that passes every check makes exactly one call, [put], under
    the computed key; when [put] returns, the answer is 201 with that key. *)
Lemma valid_upload_run (event : WorkerEvent) (w : World B) :
  first_failed_check event.(request) = None ->
  let key := upload_key event.(request) (Date_now_value w) (Math_random_base36 w) in
  calls (handleUploadAudioFile event w).2
  = (calls w ++ [PutCall key event.(request).(body)])%list
  /\ forall r, (handleUploadAudioFile event w).1 = Returned r ->
       r = createResponse (JObject [("message", JString "success"); ("key", JString key)])
             (Some 201).
Proof.
  intros Hvalid key. rewrite (upload_accepted event w Hvalid). unfold upload_outcome.
  fold key. destruct (r2_put _ _ _) as [[[]|e] b']; simpl; split;
    first [reflexivity | intros r [= <-]; reflexivity | discriminate].
Qed.

(** C3.  For every upload request that passes all validation checks, the key
    under which the body is stored (and which the 201 response reports) is
    the hyphen-joined list of the non-empty, non-absent parts -- negative
    marker for a wake word of the negative list, wake word, language and
    accent joined by an underscore when both are given, age, gender,
    identifier -- followed by a dot and the subtype of the content type. *)
Theorem C3_storage_key (event : WorkerEvent) (w : World B) :
  first_failed_check event.(request) = None ->
  exists ct ww,
    contentType_of event.(request) = Some ct
    /\ wakeWord_of event.(request) = Some ww
    /\ let key :=
         spec_key (includes NEGATIVE_WAKE_WORD_ALLOWED_NAMES ww) ww
           (language_of event.(request)) (accent_of event.(request))
           (age_of event.(request)) (gender_of event.(request))
           (identifier_of event.(request) (Date_now_value w) (Math_random_base36 w)) ct in
       calls (handleUploadAudioFile event w).2
       = (calls w ++ [PutCall key event.(request).(body)])%list
       /\ forall r, (handleUploadAudioFile event w).1 = Returned r ->
            r = createResponse
                  (JObject [("message", JString "success"); ("key", JString key)])
                  (Some 201).
Proof.
  intros Hvalid.
  destruct (valid_upload_facts _ Hvalid) as (_ & (ct & Hct & _) & (ww & Hww & _) & _).
  exists ct, ww. split; [exact Hct|]. split; [exact Hww|]. intros key. subst key.
  rewrite <- (upload_key_spec _ _ _ ct ww Hvalid Hct Hww).
  apply valid_upload_run, Hvalid.
Qed.

(** C4.  For every upload request that passes all validation checks, the
    stored key begins with ["negative-"] if and only if the wake word is in
    the negative list; for a wake word of the positive list it does not. *)
Theorem C4_negative_prefix (event : WorkerEvent) (w : World B) :
  first_failed_check event.(request) = None ->
  exists ww key,
    wakeWord_of event.(request) = Some ww
    /\ calls (handleUploadAudioFile event w).2
       = (calls w ++ [PutCall key event.(request).(body)])%list
    /\ (String.prefix "negative-" key = true <-> In ww NEGATIVE_WAKE_WORD_ALLOWED_NAMES)
    /\ (In ww WAKE_WORD_ALLOWED_NAMES -> String.prefix "negative-" key = false).
Proof.
  intros Hvalid.
  destruct (valid_upload_facts _ Hvalid) as (_ & _ & (ww & Hww & Hin) & _).
  exists ww, (upload_key event.(request) (Date_now_value w) (Math_random_base36 w)).
  split; [exact Hww|]. split; [apply valid_upload_run, Hvalid|].
  rewrite (upload_key_negative _ _ _ ww Hww Hin). split.
  - apply includes_In.
  - intros [<-|[]]. reflexivity.
Qed.

(** C9.  When the gender parameter is absent or empty, the gender used is
    ["do_not_wish_to_say"]: the test of the gender check is then a lookup of
    that name, so with that name in GENDERS the request is not rejected by
    the gender check; and the key of every valid upload carries the gender
    as its segment before the identifier. *)
Theorem C9_gender_default (event : WorkerEvent) (w : World B) :
  (searchParams_get "gender" event.(request).(searchParams) = None
   \/ searchParams_get "gender" event.(request).(searchParams) = Some "" ->
   gender_of event.(request) = "do_not_wish_to_say"
   /\ (js_in GENDERS "do_not_wish_to_say" = true ->
       negb (js_in GENDERS (gender_of event.(request))) = false
       /\ first_failed_check event.(request) <> Some CheckGender))
  /\ (first_failed_check event.(request) = None ->
      gender_of event.(request) <> ""
      /\ exists front ext,
           calls (handleUploadAudioFile event w).2
           = (calls w
              ++ [PutCall
                    (join "-"
                       (front ++ [gender_of event.(request);
                                  identifier_of event.(request)
                                    (Date_now_value w) (Math_random_base36 w)])
                     +:+ "." +:+ ext)
                    event.(request).(body)])%list).
Proof.
  split.
  - intros Hgender.
    assert (Hdefault : gender_of event.(request) = "do_not_wish_to_say").
    { unfold gender_of. destruct Hgender as [-> | ->]; reflexivity. }
    split; [exact Hdefault|]. intros Hin. rewrite Hdefault, Hin.
    split; [reflexivity|].
    unfold first_failed_check. rewrite Hdefault, Hin. cbn [negb].
    repeat match goal with
           | |- context [if ?b then _ else _] => destruct b; [discriminate|]
           end.
    repeat match goal with
           | |- context [if ?b then _ else _] => destruct b; try discriminate
           end.
  - intros Hvalid. split; [apply gender_of_nonempty|].
    destruct (upload_key_tail event.(request) (Date_now_value w) (Math_random_base36 w))
      as (front & ext & Hkey).
    exists front, ext. rewrite <- Hkey. apply valid_upload_run, Hvalid.
Qed.

(** C10.  With a non-empty cf-ray header the identifier is that header
    value, whatever the clock and the random source say: two valid upload
    requests with the same method, headers and query parameters are stored
    under the same key, which ends with the header value before the
    extension. *)
Theorem C10_cf_ray_key (event1 event2 : WorkerEvent) (w1 w2 : World B) (ray : string) :
  cfRay_of event1.(request) = Some ray ->
  ray <> "" ->
  event1.(request).(method) = event2.(request).(method) ->
  event1.(request).(headers) = event2.(request).(headers) ->
  event1.(request).(searchParams) = event2.(request).(searchParams) ->
  first_failed_check event1.(request) = None ->
  identifier_of event1.(request) (Date_now_value w1) (Math_random_base36 w1) = ray
  /\ exists key front ext,
       key = join "-" (front ++ [gender_of event1.(request); ray]) +:+ "." +:+ ext
       /\ calls (handleUploadAudioFile event1 w1).2
          = (calls w1 ++ [PutCall key event1.(request).(body)])%list
       /\ calls (handleUploadAudioFile event2 w2).2
          = (calls w2 ++ [PutCall key event2.(request).(body)])%list.
Proof.
  intros Hray Hne Hm Hh Hq Hvalid.
  assert (Hid : forall t r, identifier_of event1.(request) t r = ray).
  { intros t r. unfold identifier_of. rewrite Hray. simpl.
    destruct (String.eqb_spec ray ""); [contradiction|reflexivity]. }
  split; [apply Hid|].
  assert (Hvalid2 : first_failed_check event2.(request) = None).
  { rewrite <- Hvalid. unfold first_failed_check, contentType_of, contentLength_value,
      wakeWord_of, age_of, gender_of, language_of, accent_of.
    rewrite Hm, Hh, Hq. reflexivity. }
  assert (Hkey : forall t r t' r',
             upload_key event2.(request) t' r' = upload_key event1.(request) t r).
  { intros t r t' r'. unfold upload_key, storageKey.
    fold (identifier_of event1.(request) t r) (identifier_of event2.(request) t' r').
    replace (identifier_of event2.(request) t' r') with ray.
    - rewrite Hid. unfold languageAccent_of, contentType_of, wakeWord_of, age_of,
        gender_of, language_of, accent_of. rewrite Hh, Hq. reflexivity.
    - rewrite <- (Hid t' r'). unfold identifier_of, cfRay_of. rewrite Hh. reflexivity. }
  destruct (upload_key_tail event1.(request) (Date_now_value w1) (Math_random_base36 w1))
    as (front & ext & Htail).
  rewrite Hid in Htail.
  exists (upload_key event1.(request) (Date_now_value w1) (Math_random_base36 w1)), front, ext.
  split; [exact Htail|]. split.
  - apply valid_upload_run, Hvalid.
  - rewrite <- (Hkey (Date_now_value w1) (Math_random_base36 w1)
                  (Date_now_value w2) (Math_random_base36 w2)).
    apply valid_upload_run, Hvalid2.
Qed.
End UploadClaims.

(** ** Backend errors, the list limit, the preflight and the headers *)

Lemma createResponse_headers (content : Json) (status : option Z) :
  headers_get "Access-Control-Allow-Origin" (res_headers (createResponse content status))
  = Some "*"
  /\ headers_get "Access-Control-Allow-Methods" (res_headers (createResponse content status))
     = Some "PUT"
  /\ headers_get "Access-Control-Allow-Headers" (res_headers (createResponse content status))
     = Some "Content-Type"
  /\ headers_get "Content-Type" (res_headers (createResponse content status))
     = Some "application/json;charset=UTF-8".
Proof. repeat split; vm_compute; reflexivity. Qed.

Section DispatcherClaims.
Context {B : Type} {bucketOps : R2Bucket B} {tables : Demographics}.

Lemma list_run (event : WorkerEvent) (w : World B) :
  let options := list_options_of event.(request) in
  calls (handleListFiles event w).2 = (calls w ++ [ListCall options])%list
  /\ (forall listed b',
        r2_list options (bucket w) = (Returned listed, b') ->
        exists r, handleListFiles event w = (Returned r, after_call (ListCall options) b' w)
                  /\ res_status r = 200)
  /\ (forall e b',
        r2_list options (bucket w) = (Thrown e, b') ->
        handleListFiles event w
        = (Returned (createResponse (backend_error_content "Error listing files" e) (Some 500)),
           after_call (ListCall options) b' w)).
Proof.
  intros options. unfold handleListFiles, try_catch, mbind, M_bind, mret, M_ret,
    bucket_list, bucket_call. fold (list_options_of event.(request)). fold options.
  destruct (r2_list options (bucket w)) as [[listed|e] b'] eqn:Hlist; simpl.
  - split; [reflexivity|]. split; [|discriminate].
    intros listed' b'' [= <- <-]. eexists. split; reflexivity.
  - split; [reflexivity|]. split; [discriminate|].
    intros e' b'' [= <- <-]. reflexivity.
Qed.


(** C7, as amended.  The list handler makes one [list] call.  When the
    limit parameter is absent or empty the limit passed is 1000; when it
    parses as a number [n] the limit passed is the smaller of [n] and 1000,
    so at most 1000 (1000 for a requested 5000); and whenever the call
    returns, the response has status 200. *)
Theorem C7_list_limit (event : WorkerEvent) (w : World B) :
  exists options,
    calls (handleListFiles event w).2 = (calls w ++ [ListCall options])%list
    /\ (truthy (searchParams_get "limit" event.(request).(searchParams)) = false ->
        options.(limit) = Num 1000)
    /\ (forall s n,
          searchParams_get "limit" event.(request).(searchParams) = Some s ->
          parseInt s = Num n ->
          options.(limit) = Num (Z.min n 1000)
          /\ js_le options.(limit) (Num 1000) = true
          /\ (n = 5000 -> options.(limit) = Num 1000))
    /\ (forall listed b',
          r2_list options (bucket w) = (Returned listed, b') ->
          exists r w', handleListFiles event w = (Returned r, w') /\ res_status r = 200).
Proof.
  destruct (list_run event w) as (Hcalls & Hok & _).
  exists (list_options_of event.(request)). split; [exact Hcalls|]. split; [|split].
  - unfold list_options_of, truthy, or_default. simpl.
    destruct (searchParams_get "limit" _) as [s|]; [|reflexivity].
    destruct (s =? "")%string; [reflexivity|discriminate].
  - intros s n Hs Hp. unfold list_options_of. simpl. rewrite Hs. unfold or_default.
    destruct (String.eqb_spec s "") as [->|_]; [discriminate Hp|].
    rewrite Hp. simpl. split; [reflexivity|]. split.
    + apply Z.leb_le. lia.
    + intros ->. reflexivity.
  - intros listed b' Hlist. destruct (Hok listed b' Hlist) as (r & Hrun & Hstatus).
    eauto.
Qed.

(** C8.  For every request with method OPTIONS, whatever the path, the
    dispatcher answers 200 with the JSON string ["ok"] and leaves the world
    as it was: no route is matched, no handler runs, no bucket call is made. *)
Theorem C8_options_preflight (requestUrl : URL) (event : WorkerEvent) (w : World B) :
  event.(request).(method) = "OPTIONS" ->
  exists r,
    assistHandler requestUrl event w = (Returned r, w)
    /\ res_status r = 200
    /\ res_body r = TextBody (dquote +:+ "ok" +:+ dquote)
    /\ r = createResponse (JString "ok") (Some 200)
    /\ calls (assistHandler requestUrl event w).2 = calls w
    /\ bucket (assistHandler requestUrl event w).2 = bucket w.
Proof.
  intros Hm. unfold assistHandler. rewrite Hm. simpl.
  eexists. split; [reflexivity|]. repeat split.
Qed.
End DispatcherClaims.

(** ** Failing a check *)

Section FailedChecks.
Context {B : Type} {bucketOps : R2Bucket B} {tables : Demographics}.





End FailedChecks.



(** With tables written as object literals, an age and a gender that are
    only names inherited from [Object.prototype] pass the two lookups, and
    the recording is stored under them. *)
Example inherited_names_are_stored :
  first_failed_check (tables := literal_demographics)
    (upload_request (webm_headers "3000")
       [("wake_word", "hey_nexus"); ("age", "toString"); ("gender", "constructor")]).(request)
  = None
  /\ calls (handleUploadAudioFile (tables := literal_demographics)
              (upload_request (webm_headers "3000")
                 [("wake_word", "hey_nexus"); ("age", "toString"); ("gender", "constructor")])
              (sample_world ([] : MemoryBucket))).2
     = [PutCall "hey_nexus-toString-constructor-1714564800000-k3j9x0q2m7f.webm" sample_audio].
Proof. split; vm_compute; reflexivity. Qed.

(** ** The properties on concrete requests *)

Lemma C3_storage_key_witness :
  first_failed_check (tables := sample_demographics) traced_upload.(request) = None
  /\ exists ct ww,
       contentType_of traced_upload.(request) = Some ct
       /\ wakeWord_of traced_upload.(request) = Some ww
       /\ let key :=
            spec_key (includes NEGATIVE_WAKE_WORD_ALLOWED_NAMES ww) ww
              (language_of traced_upload.(request)) (accent_of traced_upload.(request))
              (age_of traced_upload.(request)) (gender_of traced_upload.(request))
              (identifier_of traced_upload.(request)
                 (Date_now_value (sample_world ([] : MemoryBucket)))
                 (Math_random_base36 (sample_world ([] : MemoryBucket)))) ct in
          calls (handleUploadAudioFile (tables := sample_demographics) traced_upload
                   (sample_world ([] : MemoryBucket))).2
          = (calls (sample_world ([] : MemoryBucket))
             ++ [PutCall key traced_upload.(request).(body)])%list
          /\ forall r,
               (handleUploadAudioFile (tables := sample_demographics) traced_upload
                  (sample_world ([] : MemoryBucket))).1 = Returned r ->
               r = createResponse
                     (JObject [("message", JString "success"); ("key", JString key)])
                     (Some 201).
Proof.
  split; [vm_compute; reflexivity|].
  apply (C3_storage_key (tables := sample_demographics) traced_upload (sample_world [])).
  vm_compute; reflexivity.
Defined.

Lemma C4_negative_prefix_witness :
  exists ww key,
    wakeWord_of traced_upload.(request) = Some ww
    /\ calls (handleUploadAudioFile (tables := sample_demographics) traced_upload
                (sample_world ([] : MemoryBucket))).2
       = (calls (sample_world ([] : MemoryBucket))
          ++ [PutCall key traced_upload.(request).(body)])%list
    /\ (String.prefix "negative-" key = true <-> In ww NEGATIVE_WAKE_WORD_ALLOWED_NAMES)
    /\ (In ww WAKE_WORD_ALLOWED_NAMES -> String.prefix "negative-" key = false).
Proof.
  apply (C4_negative_prefix (tables := sample_demographics) traced_upload (sample_world [])).
  vm_compute; reflexivity.
Defined.

Lemma C9_gender_default_witness :
  gender_of traced_upload.(request) = "do_not_wish_to_say"
  /\ first_failed_check (tables := sample_demographics) traced_upload.(request)
     <> Some CheckGender
  /\ exists front ext,
       calls (handleUploadAudioFile (tables := sample_demographics) traced_upload
                (sample_world ([] : MemoryBucket))).2
       = (calls (sample_world ([] : MemoryBucket))
          ++ [PutCall
                (join "-"
                   (front ++ [gender_of traced_upload.(request);
                              identifier_of traced_upload.(request)
                                (Date_now_value (sample_world ([] : MemoryBucket)))
                                (Math_random_base36 (sample_world ([] : MemoryBucket)))])
                 +:+ "." +:+ ext)
                traced_upload.(request).(body)])%list.
Proof.
  pose proof (C9_gender_default (tables := sample_demographics) traced_upload
                (sample_world ([] : MemoryBucket))) as [Habsent Hvalid].
  destruct (Habsent (or_introl eq_refl)) as [Hdefault Hcheck].
  destruct (Hcheck eq_refl) as [_ Hnot].
  destruct (Hvalid ltac:(vm_compute; reflexivity)) as [_ Hkey].
  split; [exact Hdefault|]. split; [exact Hnot|exact Hkey].
Defined.

Lemma C10_cf_ray_key_witness :
  identifier_of traced_upload.(request)
    (Date_now_value (sample_world ([] : MemoryBucket)))
    (Math_random_base36 (sample_world ([] : MemoryBucket))) = "8a1b2c3d4e5f-AMS"
  /\ exists key front ext,
       key = join "-" (front ++ [gender_of traced_upload.(request); "8a1b2c3d4e5f-AMS"])
             +:+ "." +:+ ext
       /\ calls (handleUploadAudioFile (tables := sample_demographics) traced_upload
                  (sample_world ([] : MemoryBucket))).2
          = (calls (sample_world ([] : MemoryBucket))
             ++ [PutCall key traced_upload.(request).(body)])%list
       /\ calls (handleUploadAudioFile (tables := sample_demographics) traced_upload
                  (later_world ([] : MemoryBucket))).2
          = (calls (later_world ([] : MemoryBucket))
             ++ [PutCall key traced_upload.(request).(body)])%list.
Proof.
  apply (C10_cf_ray_key (tables := sample_demographics) traced_upload traced_upload
           (sample_world []) (later_world []) "8a1b2c3d4e5f-AMS");
    [vm_compute; reflexivity | discriminate | reflexivity | reflexivity | reflexivity
    | vm_compute; reflexivity].
Defined.


Lemma C8_options_preflight_witness :
  exists r,
    assistHandler (tables := sample_demographics) {| pathname := "/no/such/route" |}
      {| request := {| method := "OPTIONS"; headers := ∅; searchParams := [];
                       body := None |} |}
      (sample_world ([] : MemoryBucket))
    = (Returned r, sample_world [])
    /\ res_status r = 200
    /\ res_body r = TextBody (dquote +:+ "ok" +:+ dquote)
    /\ r = createResponse (JString "ok") (Some 200)
    /\ calls (assistHandler (tables := sample_demographics) {| pathname := "/no/such/route" |}
                {| request := {| method := "OPTIONS"; headers := ∅; searchParams := [];
                                 body := None |} |}
                (sample_world ([] : MemoryBucket))).2 = []
    /\ bucket (assistHandler (tables := sample_demographics)
                 {| pathname := "/no/such/route" |}
                 {| request := {| method := "OPTIONS"; headers := ∅; searchParams := [];
                                  body := None |} |}
                 (sample_world ([] : MemoryBucket))).2 = [].
Proof.
  apply (C8_options_preflight (tables := sample_demographics) {| pathname := "/no/such/route" |}
           {| request := {| method := "OPTIONS"; headers := ∅; searchParams := [];
                            body := None |} |}
           (sample_world ([] : MemoryBucket))).
  reflexivity.
Defined.

(** C7, as stated, fails: for [limit=abc] the limit passed to the bucket is
    NaN, which is not at most 1000. *)
Lemma C7_counterexample :
  ~ (forall (event : WorkerEvent) (w : World MemoryBucket) (options : R2ListOptions),
        In (ListCall options) (calls (handleListFiles event w).2) ->
        js_le options.(limit) (Num 1000) = true).
Proof.
  intros claim.
  specialize (claim (get_request [("limit", "abc")]) (sample_world [])
                {| limit := NaN; prefix := ""; cursor := None |}).
  discriminate claim. vm_compute. left. reflexivity.
Qed.

(** C6 does not hold of the code: on the download route, a GET request
    without a key gets a JSON response whose Access-Control-Allow-Methods
    header is PUT, not GET.  The response comes from [createResponse], as do
    the 404 and 500 responses of the download route and the 500 response of
    the list route; only the success responses of the two routes set GET. *)
Theorem C6_download_error_allows_PUT :
  exists r,
    assistHandler (tables := sample_demographics)
      {| pathname := TRIGGER_PATH.WAKE_WORD_TRAINING_DOWNLOAD |} (get_request [])
      (sample_world ([] : MemoryBucket))
    = (Returned r, sample_world [])
    /\ res_status r = 400
    /\ headers_get "Content-Type" (res_headers r) = Some "application/json;charset=UTF-8"
    /\ headers_get "Access-Control-Allow-Methods" (res_headers r) = Some "PUT"
    /\ headers_get "Access-Control-Allow-Methods" (res_headers r) <> Some "GET".
Proof.
  eexists. split; [reflexivity|]. repeat split; try (vm_compute; reflexivity).
  vm_compute. discriminate.
Qed.

(** ** Further runs of the model *)

Example parseInt_plain : parseInt "1024" = Num 1024.
Proof. reflexivity. Qed.

Example parseInt_suffix : parseInt " 12abc" = Num 12.
Proof. reflexivity. Qed.

Example parseInt_negative : parseInt "-5" = Num (-5).
Proof. reflexivity. Qed.

Example parseInt_words : parseInt "abc" = NaN.
Proof. reflexivity. Qed.

Example JSON_stringify_string :
  JSON_stringify (JString "Not Found") = Some (dquote +:+ "Not Found" +:+ dquote).
Proof. reflexivity. Qed.

Example JSON_stringify_nested :
  JSON_stringify (JObject [("message", JString "success"); ("skip", JUndefined);
                           ("n", JArray [JNumber (Num 3)])])
  = Some ("{" +:+ String (ascii_of_nat 10) "  " +:+ dquote +:+ "message" +:+ dquote +:+ ": "
          +:+ dquote +:+ "success" +:+ dquote +:+ "," +:+ String (ascii_of_nat 10) "  "
          +:+ dquote +:+ "n" +:+ dquote +:+ ": [" +:+ String (ascii_of_nat 10) "    3"
          +:+ String (ascii_of_nat 10) "  ]" +:+ String (ascii_of_nat 10) "}").
Proof. reflexivity. Qed.

(** The traced upload is stored under the expected name. *)
Example traced_upload_key :
  calls (handleUploadAudioFile (tables := sample_demographics) traced_upload
           (sample_world ([] : MemoryBucket))).2
  = [PutCall "negative-texas-en_us-teens-do_not_wish_to_say-8a1b2c3d4e5f-AMS.webm"
       sample_audio].
Proof. vm_compute. reflexivity. Qed.

(** Without a trace header the identifier is the clock and thirteen
    characters of the random number. *)
Example untraced_upload_key :
  calls (handleUploadAudioFile (tables := sample_demographics)
           (upload_request (webm_headers "3000") [("wake_word", "hey_nexus")])
           (sample_world ([] : MemoryBucket))).2
  = [PutCall "hey_nexus-do_not_wish_to_say-1714564800000-k3j9x0q2m7f.webm" sample_audio].
Proof. vm_compute. reflexivity. Qed.

(** A Content-Length of [-5] passes the content-length check. *)
Example negative_content_length_is_stored :
  calls (handleUploadAudioFile (tables := sample_demographics)
           (upload_request (webm_headers "-5") [("wake_word", "hey_nexus")])
           (sample_world ([] : MemoryBucket))).2
  = [PutCall "hey_nexus-do_not_wish_to_say-1714564800000-k3j9x0q2m7f.webm" sample_audio].
Proof. vm_compute. reflexivity. Qed.

(** On the list route the success response sets GET and the error response,
    built by [createResponse], sets PUT. *)
Example list_success_allows_GET :
  match handleListFiles (get_request [("limit", "5000")]) (sample_world ([] : MemoryBucket)) with
  | (Returned r, w') =>
      (res_status r, headers_get "Access-Control-Allow-Methods" (res_headers r), calls w')
  | (Thrown _, _) => (0, None, [])
  end
  = (200, Some "GET", [ListCall {| limit := Num 1000; prefix := ""; cursor := None |}]).
Proof. vm_compute. reflexivity. Qed.

Example list_error_allows_PUT :
  match handleListFiles (get_request []) (sample_world offline) with
  | (Returned r, _) => (res_status r, headers_get "Access-Control-Allow-Methods" (res_headers r))
  | (Thrown _, _) => (0, None)
  end
  = (500, Some "PUT").
Proof. vm_compute. reflexivity. Qed.

(** A stored object comes back with its size and its name. *)
Example download_found :
  let stored := (handleUploadAudioFile (tables := sample_demographics) traced_upload
                   (sample_world ([] : MemoryBucket))).2 in
  match handleDownloadFile
          (get_request [("key", "negative-texas-en_us-teens-do_not_wish_to_say-8a1b2c3d4e5f-AMS.webm")])
          stored with
  | (Returned r, _) =>
      (res_status r, res_body r,
       headers_get "Content-Length" (res_headers r),
       headers_get "Access-Control-Allow-Methods" (res_headers r))
  | (Thrown _, _) => (0, EmptyBody, None, None)
  end
  = (200, StreamBody sample_audio, Some "4", Some "GET").
Proof. vm_compute. reflexivity. Qed.

Example unknown_path_not_found :
  match assistHandler (tables := sample_demographics) {| pathname := "/assist" |}
          (get_request []) (sample_world ([] : MemoryBucket)) with
  | (Returned r, _) => (res_status r, res_body r)
  | (Thrown _, _) => (0, EmptyBody)
  end
  = (404, TextBody (dquote +:+ "Not Found" +:+ dquote)).
Proof. vm_compute. reflexivity. Qed.

(** * Further properties of the handlers *)

(** ** The upload handler as a whole *)

Lemma prefix_append (p s : string) : String.prefix p (p +:+ s) = true.
Proof.
  induction p as [|a p IH]; simpl.
  - destruct s; reflexivity.
  - destruct (ascii_dec a a); [exact IH|contradiction].
Qed.

Lemma prefix_of_append (p s k : string) : k = p +:+ s -> String.prefix p k = true.
Proof. intros ->. apply prefix_append. Qed.

Section UploadOutcomes.
Context {B : Type} {bucketOps : R2Bucket B} {tables : Demographics}.

(** Every rejection is a [message] object. *)
Lemma upload_rejected_message (event : WorkerEvent) (w : World B) (c : UploadCheck) :
  first_failed_check event.(request) = Some c ->
  exists text,
    handleUploadAudioFile event w
    = (Returned (createResponse (message text) (Some (check_status c))), w).
Proof.
  unfold first_failed_check, handleUploadAudioFile,
    contentType_of, contentLength_value, wakeWord_of, age_of, gender_of,
    language_of, accent_of.
  repeat match goal with
         | |- context [if ?b then _ else _] =>
             destruct b; [intros [= <-]; eexists; reflexivity|]
         end.
  all: try discriminate.
  repeat match goal with
         | |- context [if ?b then _ else _] =>
             destruct b; [try (intros [= <-]; eexists; reflexivity)|]
         end.
  all: try discriminate.
Qed.

(** X1.  Whatever the request, the upload handler does one of three things:
    it answers 400, 405, 413 or 415 and leaves the world untouched; or it
    logs the key, makes one [put] of the request body under that key and
    answers 201 with the key; or it logs, makes that one [put], and throws
    what [put] threw.  It never calls [list] or [get]. *)
Theorem upload_outcomes (event : WorkerEvent) (w : World B) :
  (exists r,
      handleUploadAudioFile event w = (Returned r, w)
      /\ In (res_status r) [400; 405; 413; 415])
  \/ (exists key result b',
         r2_put key event.(request).(body) (bucket w) = (result, b')
         /\ (handleUploadAudioFile event w).2
            = {| bucket := b';
                 calls := calls w ++ [PutCall key event.(request).(body)];
                 console := console w ++ [key];
                 Date_now_value := Date_now_value w;
                 Math_random_base36 := Math_random_base36 w |}
         /\ (handleUploadAudioFile event w).1
            = match result with
              | Returned _ =>
                  Returned (createResponse
                              (JObject [("message", JString "success"); ("key", JString key)])
                              (Some 201))
              | Thrown e => Thrown e
              end).
Proof.
  destruct (first_failed_check event.(request)) as [c|] eqn:Hc.
  - left. destruct (upload_rejected event w c Hc) as [content Hrun].
    eexists. split; [exact Hrun|]. destruct c; simpl; tauto.
  - right. rewrite (upload_accepted event w Hc). unfold upload_outcome.
    destruct (r2_put _ _ _) as [[[]|e] b'] eqn:Hput;
      do 3 eexists; (split; [exact Hput|]); split; reflexivity.
Qed.

(** X3.  The name under which a valid upload is stored ends with a dot and
    one of the four extensions webm, ogg, mp4, wav: the subtype of the
    allowed content type the request carried. *)
Theorem upload_key_extension (event : WorkerEvent) (w : World B) :
  first_failed_check event.(request) = None ->
  exists stem ext,
    In ext ["webm"; "ogg"; "mp4"; "wav"]
    /\ contentType_of event.(request) = Some ("audio/" +:+ ext)
    /\ calls (handleUploadAudioFile event w).2
       = (calls w ++ [PutCall (stem +:+ "." +:+ ext) event.(request).(body)])%list.
Proof.
  intros Hvalid.
  destruct (valid_upload_facts _ Hvalid) as (_ & (ct & Hct & Hin) & _).
  destruct (valid_upload_run event w Hvalid) as [Hcalls _].
  unfold upload_key, storageKey in Hcalls. rewrite Hct in Hcalls. simpl default in Hcalls.
  apply includes_In in Hin. simpl in Hin.
  destruct Hin as [<-|[<-|[<-|[<-|[]]]]];
    eexists _, _; (split; [|split; [exact Hct|exact Hcalls]]); simpl; tauto.
Qed.

(** X13.  The stored name of a valid upload starts with its wake word and a
    hyphen, after ["negative-"] for the decoy phrases: one of four fixed
    prefixes, so the samples of one wake word can be listed by prefix. *)
Theorem upload_key_wake_word_prefix (event : WorkerEvent) (w : World B) :
  first_failed_check event.(request) = None ->
  exists p key,
    In p ["hey_nexus-"; "negative-hey_lexus-"; "negative-hey_texas-"; "negative-texas-"]
    /\ String.prefix p key = true
    /\ calls (handleUploadAudioFile event w).2
       = (calls w ++ [PutCall key event.(request).(body)])%list.
Proof.
  intros Hvalid.
  destruct (valid_upload_facts _ Hvalid) as (_ & _ & (ww & Hww & Hin) & _).
  destruct (valid_upload_run event w Hvalid) as [Hcalls _].
  assert (Hprefix : exists p,
             In p ["hey_nexus-"; "negative-hey_lexus-"; "negative-hey_texas-";
                   "negative-texas-"]
             /\ String.prefix p
                  (upload_key event.(request) (Date_now_value w) (Math_random_base36 w))
                = true).
  { unfold upload_key, storageKey. rewrite Hww. simpl default.
    change [?a; ?b; ?c; ?d; ?e; ?f] with ([a; b; c; d] ++ [e; f])%list.
    rewrite filter_parts_app.
    rewrite (filter_parts_nonempty (gender_of event.(request)))
      by apply gender_of_nonempty.
    change [?a; ?b; ?c; ?d] with ([a; b] ++ [c; d])%list.
    rewrite filter_parts_app.
    generalize (filter_parts [or_null (languageAccent_of event.(request));
                              or_null (Some (age_of event.(request)))]).
    generalize (filter_parts
                  [Some (or_default (cfRay_of event.(request))
                           (Number_toString (Date_now_value w) +:+ "-"
                            +:+ js_substring 2 15 (Math_random_base36 w)))]).
    generalize (replace_first "audio/" "" (default "" (contentType_of event.(request)))).
    intros ext tail middle.
    apply includes_In in Hin. simpl in Hin.
    destruct Hin as [<-|[<-|[<-|[<-|[]]]]];
      [exists "hey_nexus-" | exists "negative-hey_lexus-"
      | exists "negative-hey_texas-" | exists "negative-texas-"];
      (split; [simpl; tauto | destruct middle; eapply prefix_of_append; reflexivity]). }
  destruct Hprefix as (p & Hp & Hpre). eauto.
Qed.
End UploadOutcomes.

(** ** Media type parameters *)



Section MediaType.
Context {B : Type} {bucketOps : R2Bucket B} {tables : Demographics}.

End MediaType.

(** ** Trace headers and key collisions *)

Lemma append_assoc' (a b c : string) : (a +:+ b) +:+ c = a +:+ (b +:+ c).
Proof.
  induction a as [|x a IH]; [reflexivity|].
  change (String x ((a +:+ b) +:+ c) = String x (a +:+ (b +:+ c))).
  rewrite IH. reflexivity.
Qed.

Lemma append_length (a b : string) :
  String.length (a +:+ b) = (String.length a + String.length b)%nat.
Proof.
  induction a as [|x a IH]; [reflexivity|].
  change (S (String.length (a +:+ b)) = S (String.length a + String.length b)).
  rewrite IH. reflexivity.
Qed.

Lemma append_cancel_l (a b c : string) : a +:+ b = a +:+ c -> b = c.
Proof.
  induction a as [|x a IH]; [tauto|].
  change (String x (a +:+ b) = String x (a +:+ c) -> b = c).
  intros [= Heq]. exact (IH Heq).
Qed.

Lemma append_cancel_r (a b c : string) : b +:+ a = c +:+ a -> b = c.
Proof.
  revert c. induction b as [|x b IH]; intros [|y c] Heq.
  - reflexivity.
  - apply (f_equal String.length) in Heq.
    change (String.length a = S (String.length (c +:+ a))) in Heq.
    rewrite append_length in Heq. lia.
  - apply (f_equal String.length) in Heq.
    change (S (String.length (b +:+ a)) = String.length a) in Heq.
    rewrite append_length in Heq. lia.
  - change (String x (b +:+ a) = String y (c +:+ a)) in Heq.
    injection Heq as -> Heq. rewrite (IH c Heq). reflexivity.
Qed.

Lemma join_snoc (sep : string) (l : list string) (x : string) :
  l <> [] -> join sep (l ++ [x]) = join sep l +:+ sep +:+ x.
Proof.
  induction l as [|y l IH]; [contradiction|]. intros _.
  destruct l as [|z l]; [reflexivity|].
  change (join sep ((y :: z :: l) ++ [x])) with (y +:+ sep +:+ join sep ((z :: l) ++ [x])).
  rewrite IH by discriminate.
  change (join sep (y :: z :: l)) with (y +:+ sep +:+ join sep (z :: l)).
  rewrite !append_assoc'. reflexivity.
Qed.

(** The key with its identifier singled out: what precedes it and what
    follows it do not depend on the identifier. *)
Lemma upload_key_around_identifier (request : Request) (timestamp : Z) (randomBase36 : string) :
  upload_key request timestamp randomBase36
  = (join "-"
       (filter_parts
          [ (if includes NEGATIVE_WAKE_WORD_ALLOWED_NAMES (default "" (wakeWord_of request))
             then Some "negative" else None);
            Some (default "" (wakeWord_of request));
            or_null (languageAccent_of request);
            or_null (Some (age_of request)) ]
        ++ [gender_of request]) +:+ "-")
    +:+ identifier_of request timestamp randomBase36
    +:+ ("." +:+ replace_first "audio/" "" (default "" (contentType_of request))).
Proof.
  unfold upload_key, storageKey.
  fold (identifier_of request timestamp randomBase36).
  change [?a; ?b; ?c; ?d; ?e; ?f] with ([a; b; c; d] ++ [e; f])%list.
  rewrite filter_parts_app.
  rewrite (filter_parts_nonempty (gender_of request)) by apply gender_of_nonempty.
  rewrite (filter_parts_nonempty (identifier_of request timestamp randomBase36))
    by apply identifier_of_nonempty.
  simpl (filter_parts []).
  set (front := filter_parts _).
  change (front ++ [gender_of request; identifier_of request timestamp randomBase36])%list
    with (front ++ [gender_of request] ++ [identifier_of request timestamp randomBase36])%list.
  rewrite (assoc_L (++)).
  rewrite join_snoc by (destruct front; discriminate).
  rewrite !append_assoc'. reflexivity.
Qed.

Section TraceHeaders.
Context {B : Type} {bucketOps : R2Bucket B} {tables : Demographics}.

(** X4.  Two valid uploads with the same query parameters and the same
    media type but different non-empty cf-ray headers are stored under
    different names. *)
Theorem distinct_cf_ray_distinct_keys (event1 event2 : WorkerEvent) (w1 w2 : World B)
    (ray1 ray2 : string) :
  event1.(request).(searchParams) = event2.(request).(searchParams) ->
  contentType_of event1.(request) = contentType_of event2.(request) ->
  cfRay_of event1.(request) = Some ray1 ->
  cfRay_of event2.(request) = Some ray2 ->
  ray1 <> "" -> ray2 <> "" -> ray1 <> ray2 ->
  first_failed_check event1.(request) = None ->
  first_failed_check event2.(request) = None ->
  exists key1 key2,
    calls (handleUploadAudioFile event1 w1).2
    = (calls w1 ++ [PutCall key1 event1.(request).(body)])%list
    /\ calls (handleUploadAudioFile event2 w2).2
       = (calls w2 ++ [PutCall key2 event2.(request).(body)])%list
    /\ key1 <> key2.
Proof.
  intros Hq Hct Hray1 Hray2 Hne1 Hne2 Hdiff Hvalid1 Hvalid2.
  destruct (valid_upload_run event1 w1 Hvalid1) as [Hcalls1 _].
  destruct (valid_upload_run event2 w2 Hvalid2) as [Hcalls2 _].
  do 2 eexists. split; [exact Hcalls1|]. split; [exact Hcalls2|].
  rewrite !upload_key_around_identifier.
  unfold identifier_of. rewrite Hray1, Hray2. simpl or_default.
  apply String.eqb_neq in Hne1, Hne2. rewrite Hne1, Hne2.
  unfold languageAccent_of, wakeWord_of, age_of, gender_of, language_of, accent_of.
  rewrite Hq, Hct. intros Heq.
  apply append_cancel_l, append_cancel_r in Heq. contradiction.
Qed.
End TraceHeaders.

(** ** The download handler as a whole *)

Ltac header_names :=
  unfold headers_get, headers_set;
  repeat match goal with
         | |- context [lowercase ?name] =>
             let lowered := eval vm_compute in (lowercase name) in
             change (lowercase name) with lowered
         end.

Ltac header_lookup :=
  header_names;
  repeat first [ rewrite lookup_insert_eq
               | rewrite lookup_insert_ne by discriminate
               | rewrite lookup_empty ];
  try reflexivity.

Section DownloadOutcomes.
Context {B : Type} {bucketOps : R2Bucket B}.

Lemma download_without_key (event : WorkerEvent) (w : World B) :
  truthy (searchParams_get "key" event.(request).(searchParams)) = false ->
  handleDownloadFile event w
  = (Returned (createResponse (message "Missing required parameter: key") (Some 400)), w).
Proof. intros Hkey. unfold handleDownloadFile. rewrite Hkey. reflexivity. Qed.

(** The run with a key, by what [get] answers.  The case of an object found
    is a run of the model, whose [headers_set] never throws; it is the run
    of the code when the key and the stored content type are legal header
    values ([has_forbidden_byte], [legal_header_value]), and otherwise the
    code answers the caught 500. *)
Lemma download_with_key (event : WorkerEvent) (w : World B) (key : string)
    (result : Result (option R2Object)) (b' : B) :
  searchParams_get "key" event.(request).(searchParams) = Some key ->
  key <> "" ->
  r2_get key (bucket w) = (result, b') ->
  (handleDownloadFile event w).2 = after_call (GetCall key) b' w
  /\ match result with
     | Thrown e =>
         (handleDownloadFile event w).1
         = Returned (createResponse (backend_error_content "Error downloading file" e)
                       (Some 500))
     | Returned None =>
         (handleDownloadFile event w).1
         = Returned (createResponse (message ("File not found: " +:+ key)) (Some 404))
     | Returned (Some object) =>
         exists r,
           (handleDownloadFile event w).1 = Returned r
           /\ res_status r = 200
           /\ res_body r = StreamBody object.(obj_body)
           /\ headers_get "Access-Control-Allow-Origin" (res_headers r) = Some "*"
           /\ headers_get "Access-Control-Allow-Methods" (res_headers r) = Some "GET"
           /\ headers_get "Access-Control-Allow-Headers" (res_headers r) = Some "Content-Type"
           /\ headers_get "Content-Length" (res_headers r)
              = Some (Number_toString object.(obj_size))
           /\ headers_get "Content-Disposition" (res_headers r)
              = Some ("attachment; filename=" +:+ dquote +:+ key +:+ dquote)
           /\ headers_get "Content-Type" (res_headers r)
              = match object.(obj_httpMetadata) ≫= md_contentType with
                | Some contentType => if (contentType =? "")%string then None
                                      else Some contentType
                | None => None
                end
     end.
Proof.
  intros Hkey Hne Hget. unfold handleDownloadFile. rewrite Hkey.
  change (default "" (Some key)) with key. unfold truthy.
  apply String.eqb_neq in Hne. rewrite Hne. cbn [negb].
  unfold try_catch, mbind, M_bind, mret, M_ret, bucket_get, bucket_call.
  rewrite Hget. destruct result as [[object|]|e]; simpl; split; try reflexivity.
  eexists. split; [reflexivity|]. simpl.
  destruct (option_bind _ _ md_contentType (obj_httpMetadata object)) as [contentType|];
    [destruct (contentType =? "")%string|]; repeat split; header_lookup.
Qed.
Lemma download_returns (event : WorkerEvent) (w : World B) :
  exists r, (handleDownloadFile event w).1 = Returned r.
Proof.
  destruct (truthy (searchParams_get "key" event.(request).(searchParams))) eqn:Hkey.
  - destruct (truthy_Some _ Hkey) as (key & Hsome & Hne).
    destruct (r2_get key (bucket w)) as [result b'] eqn:Hget.
    destruct (download_with_key event w key result b' Hsome Hne Hget) as [_ Hresult].
    destruct result as [[object|]|e]; [destruct Hresult as (r & Hr & _)|..]; eauto.
  - rewrite (download_without_key event w Hkey). eauto.
Qed.
End DownloadOutcomes.

Section DownloadClaims.
Context {B : Type} {bucketOps : R2Bucket B}.

(** X5.  The download handler never throws and never writes: without a
    non-empty key it answers 400 and leaves the world untouched; with one it
    makes exactly one [get] call under that key, logs nothing, and answers
    200, 404 or 500. *)
Theorem download_outcomes (event : WorkerEvent) (w : World B) :
  exists r,
    (handleDownloadFile event w).1 = Returned r
    /\ ((truthy (searchParams_get "key" event.(request).(searchParams)) = false
         /\ res_status r = 400
         /\ (handleDownloadFile event w).2 = w)
        \/ (exists key,
               searchParams_get "key" event.(request).(searchParams) = Some key
               /\ key <> ""
               /\ In (res_status r) [200; 404; 500]
               /\ calls (handleDownloadFile event w).2 = (calls w ++ [GetCall key])%list
               /\ console (handleDownloadFile event w).2 = console w)).
Proof.
  destruct (truthy (searchParams_get "key" event.(request).(searchParams))) eqn:Hkey.
  - destruct (truthy_Some _ Hkey) as (key & Hsome & Hne).
    destruct (r2_get key (bucket w)) as [result b'] eqn:Hget.
    destruct (download_with_key event w key result b' Hsome Hne Hget) as [Hworld Hresult].
    destruct result as [[object|]|e].
    + destruct Hresult as (r & Hr & Hstatus & _). exists r. split; [exact Hr|].
      right. exists key. rewrite Hworld, Hstatus. simpl. tauto.
    + eexists. split; [exact Hresult|]. right. exists key. rewrite Hworld. simpl. tauto.
    + eexists. split; [exact Hresult|]. right. exists key. rewrite Hworld. simpl. tauto.
  - rewrite (download_without_key event w Hkey). eexists. split; [reflexivity|].
    left. simpl. tauto.
Qed.

(** X6.  When the bucket has the object, and the key and the stored content
    type are header values that the runtime takes as they are (no NUL, LF or
    CR in either, no white space around the content type), the download
    answers 200 with the object's body as a stream, a Content-Length equal
    to the object's size, a Content-Disposition naming the key as the
    attachment's file name, the cross-origin headers with method GET, and
    the stored content type as Content-Type -- or no Content-Type header at
    all when none is stored. *)
Theorem download_found_headers (event : WorkerEvent) (w : World B) (key : string)
    (object : R2Object) (b' : B) :
  searchParams_get "key" event.(request).(searchParams) = Some key ->
  key <> "" ->
  r2_get key (bucket w) = (Returned (Some object), b') ->
  has_forbidden_byte key = false ->
  legal_header_value (stored_contentType object) = true ->
  exists r,
    handleDownloadFile event w = (Returned r, after_call (GetCall key) b' w)
    /\ res_status r = 200
    /\ res_body r = StreamBody object.(obj_body)
    /\ headers_get "Access-Control-Allow-Origin" (res_headers r) = Some "*"
    /\ headers_get "Access-Control-Allow-Methods" (res_headers r) = Some "GET"
    /\ headers_get "Access-Control-Allow-Headers" (res_headers r) = Some "Content-Type"
    /\ headers_get "Content-Length" (res_headers r) = Some (Number_toString object.(obj_size))
    /\ headers_get "Content-Disposition" (res_headers r)
       = Some ("attachment; filename=" +:+ dquote +:+ key +:+ dquote)
    /\ headers_get "Content-Type" (res_headers r)
       = match object.(obj_httpMetadata) ≫= md_contentType with
         | Some contentType => if (contentType =? "")%string then None else Some contentType
         | None => None
         end.
Proof.
  intros Hkey Hne Hget _ _.
  destruct (download_with_key event w key _ b' Hkey Hne Hget) as [Hworld (r & Hr & Hrest)].
  exists r. split; [|exact Hrest].
  destruct (handleDownloadFile event w) as [out w']. simpl in Hworld, Hr. congruence.
Qed.

(** A missing object is a 404 that names the key. *)
Lemma download_missing_object (event : WorkerEvent) (w : World B) (key : string) (b' : B) :
  searchParams_get "key" event.(request).(searchParams) = Some key ->
  key <> "" ->
  r2_get key (bucket w) = (Returned None, b') ->
  handleDownloadFile event w
  = (Returned (createResponse (message ("File not found: " +:+ key)) (Some 404)),
     after_call (GetCall key) b' w).
Proof.
  intros Hkey Hne Hget.
  destruct (download_with_key event w key _ b' Hkey Hne Hget) as [Hworld Hr].
  destruct (handleDownloadFile event w) as [out w']. simpl in Hworld, Hr. congruence.
Qed.
End DownloadClaims.

(** ** Uploading, then downloading *)

Lemma upload_key_nonempty (request : Request) (timestamp : Z) (randomBase36 : string) :
  upload_key request timestamp randomBase36 <> "".
Proof.
  unfold upload_key, storageKey. apply append_nonempty_r. discriminate.
Qed.

Section RoundTrip.
Context {B : Type} {bucketOps : R2Bucket B} {tables : Demographics}.

(** X7.  The key that a 201 response reports is the key the body was put
    under, and it is never empty, so a download request for it passes the
    download handler's key check: the handler makes its one [get] call for
    that key and answers 200, 404 or 500, never 400.  When the bucket then
    returns the object, and the key and the stored content type are header
    values that the runtime takes as they are, the download answers 200 with
    that object's body. *)
Theorem uploaded_key_downloads (event : WorkerEvent) (w w1 : World B) (r : Response) :
  handleUploadAudioFile event w = (Returned r, w1) ->
  res_status r = 201 ->
  exists key,
    r = createResponse (JObject [("message", JString "success"); ("key", JString key)])
          (Some 201)
    /\ key <> ""
    /\ calls w1 = (calls w ++ [PutCall key event.(request).(body)])%list
    /\ forall (download : WorkerEvent),
         searchParams_get "key" download.(request).(searchParams) = Some key ->
         calls (handleDownloadFile download w1).2 = (calls w1 ++ [GetCall key])%list
         /\ (exists r2,
                (handleDownloadFile download w1).1 = Returned r2
                /\ In (res_status r2) [200; 404; 500])
         /\ forall (object : R2Object) (b2 : B),
              r2_get key (bucket w1) = (Returned (Some object), b2) ->
              has_forbidden_byte key = false ->
              legal_header_value (stored_contentType object) = true ->
              exists r2,
                handleDownloadFile download w1
                = (Returned r2, after_call (GetCall key) b2 w1)
                /\ res_status r2 = 200
                /\ res_body r2 = StreamBody object.(obj_body).
Proof.
  intros Hrun Hstatus.
  destruct (first_failed_check event.(request)) as [c|] eqn:Hc.
  - destruct (upload_rejected event w c Hc) as [content Hrej].
    rewrite Hrej in Hrun. injection Hrun as <- <-. simpl in Hstatus.
    destruct c; discriminate Hstatus.
  - destruct (valid_upload_run event w Hc) as [Hcalls Hresp].
    rewrite Hrun in Hcalls, Hresp. simpl in Hcalls, Hresp.
    exists (upload_key event.(request) (Date_now_value w) (Math_random_base36 w)).
    split; [apply Hresp; reflexivity|]. split; [apply upload_key_nonempty|].
    split; [exact Hcalls|].
    intros download Hkey.
    destruct (r2_get (upload_key event.(request) (Date_now_value w) (Math_random_base36 w))
                (bucket w1)) as [result b1] eqn:Hget.
    destruct (download_with_key download w1 _ result b1 Hkey (upload_key_nonempty _ _ _) Hget)
      as (Hworld & Hresult).
    split; [rewrite Hworld; reflexivity|]. split.
    + destruct result as [[object|]|e].
      * destruct Hresult as (r2 & Hr2 & Hst & _). exists r2. rewrite Hst. simpl. tauto.
      * eexists. split; [exact Hresult|]. simpl. tauto.
      * eexists. split; [exact Hresult|]. simpl. tauto.
    + intros object b2 [= -> ->] _ _.
      destruct Hresult as (r2 & Hr2 & Hst & Hbody & _).
      exists r2. split; [|split; assumption].
      destruct (handleDownloadFile download w1) as [out w2]. simpl in Hworld, Hr2.
      congruence.
Qed.
End RoundTrip.

(** ** The dispatcher as a whole *)

Lemma JSON_stringify_object (props : list (string * Json)) :
  exists text, JSON_stringify (JObject props) = Some text.
Proof.
  unfold JSON_stringify. simpl.
  match goal with |- context [match ?l with [] => _ | _ :: _ => _ end] => destruct l end;
    eauto.
Qed.

Section DispatcherOutcomes.
Context {B : Type} {bucketOps : R2Bucket B} {tables : Demographics}.

(** The list handler never throws: it answers 200 with a JSON text and the
    GET headers, or 500 through [createResponse]. *)
Lemma list_response (event : WorkerEvent) (w : World B) :
  exists r,
    (handleListFiles event w).1 = Returned r
    /\ ((res_status r = 200
         /\ (exists text, res_body r = TextBody text)
         /\ res_headers r
            = new_Headers [("Access-Control-Allow-Origin", "*");
                           ("Access-Control-Allow-Methods", "GET");
                           ("Access-Control-Allow-Headers", "Content-Type");
                           ("Content-Type", "application/json;charset=UTF-8")])
        \/ exists props, r = createResponse (JObject props) (Some 500)).
Proof.
  unfold handleListFiles, try_catch, mbind, M_bind, mret, M_ret, bucket_list, bucket_call.
  destruct (r2_list _ (bucket w)) as [[listed|e] b']; simpl.
  - eexists. split; [reflexivity|]. left. simpl. split; [reflexivity|]. split; [|reflexivity].
    match goal with
    | |- context [JSON_stringify (JObject ?props)] =>
        destruct (JSON_stringify_object props) as [text ->]
    end. eauto.
  - eexists. split; [reflexivity|]. right. eexists. reflexivity.
Qed.

(** X8.  The only error that leaves the dispatcher is one thrown by [put]:
    if the dispatcher throws, the request was a PUT on the upload route that
    passed every check, and the value thrown is what [put] threw. *)
Theorem dispatcher_throws_only_from_put (requestUrl : URL) (event : WorkerEvent)
    (w w' : World B) (e : JsThrown) :
  assistHandler requestUrl event w = (Thrown e, w') ->
  requestUrl.(pathname) = TRIGGER_PATH.WAKE_WORD_TRAINING_UPLOAD
  /\ event.(request).(method) = "PUT"
  /\ first_failed_check event.(request) = None
  /\ exists b',
       r2_put (upload_key event.(request) (Date_now_value w) (Math_random_base36 w))
         event.(request).(body) (bucket w) = (Thrown e, b').
Proof.
  unfold assistHandler.
  destruct (_ =? "OPTIONS")%string; [discriminate|].
  destruct (String.eqb_spec requestUrl.(pathname) TRIGGER_PATH.WAKE_WORD_TRAINING_UPLOAD)
    as [Hpath|_].
  - intros Hrun. split; [exact Hpath|].
    destruct (first_failed_check event.(request)) as [c|] eqn:Hc.
    + destruct (upload_rejected event w c Hc) as [content Hrej].
      rewrite Hrej in Hrun. discriminate.
    + destruct (valid_upload_facts _ Hc) as (Hm & _). split; [exact Hm|].
      split; [reflexivity|].
      rewrite (upload_accepted event w Hc) in Hrun. unfold upload_outcome in Hrun.
      destruct (r2_put _ _ _) as [[[]|e0] b'] eqn:Hput; [discriminate|].
      injection Hrun as <- _. eauto.
  - destruct (_ =? TRIGGER_PATH.WAKE_WORD_TRAINING_LIST)%string.
    + intros Hrun. destruct (list_response event w) as (r & Hr & _).
      rewrite Hrun in Hr. discriminate.
    + destruct (_ =? TRIGGER_PATH.WAKE_WORD_TRAINING_DOWNLOAD)%string.
      * intros Hrun. destruct (download_returns event w) as (r & Hr).
        rewrite Hrun in Hr. discriminate.
      * discriminate.
Qed.

(** X9.  Any path other than the three routes, on any method but OPTIONS,
    gets 404 with the JSON string ["Not Found"]; the match is exact, and the
    world is left as it was. *)
Theorem unknown_path_is_not_found (requestUrl : URL) (event : WorkerEvent) (w : World B) :
  event.(request).(method) <> "OPTIONS" ->
  requestUrl.(pathname) <> TRIGGER_PATH.WAKE_WORD_TRAINING_UPLOAD ->
  requestUrl.(pathname) <> TRIGGER_PATH.WAKE_WORD_TRAINING_LIST ->
  requestUrl.(pathname) <> TRIGGER_PATH.WAKE_WORD_TRAINING_DOWNLOAD ->
  assistHandler requestUrl event w
  = (Returned (createResponse (JString "Not Found") (Some 404)), w)
  /\ res_body (createResponse (JString "Not Found") (Some 404))
     = TextBody (dquote +:+ "Not Found" +:+ dquote).
Proof.
  intros Hm Hu Hl Hd. unfold assistHandler.
  apply String.eqb_neq in Hm, Hu, Hl, Hd. rewrite Hm, Hu, Hl, Hd.
  split; reflexivity.
Qed.
End DispatcherOutcomes.

Section DispatcherResponses.
Context {B : Type} {bucketOps : R2Bucket B} {tables : Demographics}.

Lemma upload_response (event : WorkerEvent) (w w' : World B) (r : Response) :
  handleUploadAudioFile event w = (Returned r, w') ->
  exists props status,
    r = createResponse (JObject props) (Some status)
    /\ In status [201; 400; 405; 413; 415].
Proof.
  intros Hrun. destruct (first_failed_check event.(request)) as [c|] eqn:Hc.
  - destruct (upload_rejected_message event w c Hc) as [text Hrej].
    rewrite Hrej in Hrun. injection Hrun as <- _.
    eexists _, _. split; [reflexivity|]. destruct c; simpl; tauto.
  - destruct (valid_upload_run event w Hc) as [_ Hresp].
    rewrite Hrun in Hresp. rewrite (Hresp r eq_refl).
    eexists _, _. split; [reflexivity|]. simpl; tauto.
Qed.

Lemma download_response (event : WorkerEvent) (w w' : World B) (r : Response) :
  handleDownloadFile event w = (Returned r, w') ->
  (exists props status,
      r = createResponse (JObject props) (Some status) /\ In status [400; 404; 500])
  \/ (res_status r = 200
      /\ (exists stream, res_body r = StreamBody stream)
      /\ headers_get "Access-Control-Allow-Origin" (res_headers r) = Some "*"
      /\ headers_get "Access-Control-Allow-Methods" (res_headers r) = Some "GET"
      /\ headers_get "Access-Control-Allow-Headers" (res_headers r) = Some "Content-Type").
Proof.
  intros Hrun.
  destruct (truthy (searchParams_get "key" event.(request).(searchParams))) eqn:Hkey.
  - destruct (truthy_Some _ Hkey) as (key & Hsome & Hne).
    destruct (r2_get key (bucket w)) as [result b'] eqn:Hget.
    destruct (download_with_key event w key result b' Hsome Hne Hget) as [_ Hresult].
    rewrite Hrun in Hresult. simpl in Hresult. destruct result as [[object|]|e].
    + destruct Hresult as (r0 & [= <-] & Hst & Hbody & Ho & Hm & Hh & _).
      right. rewrite Hbody. eauto 10.
    + injection Hresult as ->. left. eexists _, _. split; [reflexivity|]. simpl; tauto.
    + injection Hresult as ->. left. eexists _, _. split; [reflexivity|]. simpl; tauto.
  - rewrite (download_without_key event w Hkey) in Hrun. injection Hrun as <- _.
    left. eexists _, _. split; [reflexivity|]. simpl; tauto.
Qed.

(** Where a response of the dispatcher comes from. *)
Lemma dispatcher_response_cases (requestUrl : URL) (event : WorkerEvent)
    (w w' : World B) (r : Response) :
  assistHandler requestUrl event w = (Returned r, w') ->
  (event.(request).(method) = "OPTIONS" /\ r = createResponse (JString "ok") (Some 200))
  \/ (event.(request).(method) <> "OPTIONS"
      /\ ((requestUrl.(pathname) = TRIGGER_PATH.WAKE_WORD_TRAINING_UPLOAD
           /\ handleUploadAudioFile event w = (Returned r, w'))
          \/ (requestUrl.(pathname) = TRIGGER_PATH.WAKE_WORD_TRAINING_LIST
              /\ handleListFiles event w = (Returned r, w'))
          \/ (requestUrl.(pathname) = TRIGGER_PATH.WAKE_WORD_TRAINING_DOWNLOAD
              /\ handleDownloadFile event w = (Returned r, w'))
          \/ (requestUrl.(pathname) <> TRIGGER_PATH.WAKE_WORD_TRAINING_UPLOAD
              /\ requestUrl.(pathname) <> TRIGGER_PATH.WAKE_WORD_TRAINING_LIST
              /\ requestUrl.(pathname) <> TRIGGER_PATH.WAKE_WORD_TRAINING_DOWNLOAD
              /\ r = createResponse (JString "Not Found") (Some 404)))).
Proof.
  unfold assistHandler.
  destruct (String.eqb_spec event.(request).(method) "OPTIONS") as [Hm|Hm].
  - intros [= <- _]. left. split; [exact Hm|reflexivity].
  - intros Hrun. right. split; [exact Hm|].
    destruct (String.eqb_spec requestUrl.(pathname) TRIGGER_PATH.WAKE_WORD_TRAINING_UPLOAD)
      as [Hu|Hu]; [left; split; assumption|].
    destruct (String.eqb_spec requestUrl.(pathname) TRIGGER_PATH.WAKE_WORD_TRAINING_LIST)
      as [Hl|Hl]; [right; left; split; assumption|].
    destruct (String.eqb_spec requestUrl.(pathname) TRIGGER_PATH.WAKE_WORD_TRAINING_DOWNLOAD)
      as [Hd|Hd]; [right; right; left; split; assumption|].
    right. right. right. injection Hrun as <- _. repeat split; assumption.
Qed.

(** X10.  Every response that the dispatcher returns -- any route, success
    or error, JSON or stream -- allows every origin and the Content-Type
    request header, and names PUT or GET as the allowed method. *)
Theorem every_response_is_cross_origin (requestUrl : URL) (event : WorkerEvent)
    (w w' : World B) (r : Response) :
  assistHandler requestUrl event w = (Returned r, w') ->
  headers_get "Access-Control-Allow-Origin" (res_headers r) = Some "*"
  /\ headers_get "Access-Control-Allow-Headers" (res_headers r) = Some "Content-Type"
  /\ (headers_get "Access-Control-Allow-Methods" (res_headers r) = Some "PUT"
      \/ headers_get "Access-Control-Allow-Methods" (res_headers r) = Some "GET").
Proof.
  intros Hrun.
  assert (Hbuilt : forall content status,
             r = createResponse content status ->
             headers_get "Access-Control-Allow-Origin" (res_headers r) = Some "*"
             /\ headers_get "Access-Control-Allow-Headers" (res_headers r)
                = Some "Content-Type"
             /\ (headers_get "Access-Control-Allow-Methods" (res_headers r) = Some "PUT"
                 \/ headers_get "Access-Control-Allow-Methods" (res_headers r) = Some "GET")).
  { intros content status ->.
    destruct (createResponse_headers content status) as (Ho & Hm & Hh & _). tauto. }
  destruct (dispatcher_response_cases _ _ _ _ _ Hrun)
    as [[_ Hr]|[_ [[_ Hup]|[[_ Hlist]|[[_ Hdown]|(_ & _ & _ & Hr)]]]]].
  - exact (Hbuilt _ _ Hr).
  - destruct (upload_response _ _ _ _ Hup) as (props & status & Hr & _).
    exact (Hbuilt _ _ Hr).
  - destruct (list_response event w) as (r0 & Hr0 & [(_ & _ & Hheaders)|[props Hr]]);
      rewrite Hlist in Hr0; injection Hr0 as <-.
    + rewrite Hheaders. repeat split; try (vm_compute; reflexivity).
      right. vm_compute. reflexivity.
    + exact (Hbuilt _ _ Hr).
  - destruct (download_response _ _ _ _ Hdown)
      as [(props & status & Hr & _)|(_ & _ & Ho & Hm & Hh)].
    + exact (Hbuilt _ _ Hr).
    + tauto.
  - exact (Hbuilt _ _ Hr).
Qed.

(** X11.  The status of a response is one the route can give: 200 for
    OPTIONS; otherwise 201, 400, 405, 413 or 415 on the upload route, 200 or
    500 on the list route, 200, 400, 404 or 500 on the download route, and
    404 on every other path. *)
Theorem statuses_by_route (requestUrl : URL) (event : WorkerEvent)
    (w w' : World B) (r : Response) :
  assistHandler requestUrl event w = (Returned r, w') ->
  (event.(request).(method) = "OPTIONS" /\ res_status r = 200)
  \/ (event.(request).(method) <> "OPTIONS"
      /\ ((requestUrl.(pathname) = TRIGGER_PATH.WAKE_WORD_TRAINING_UPLOAD
           /\ In (res_status r) [201; 400; 405; 413; 415])
          \/ (requestUrl.(pathname) = TRIGGER_PATH.WAKE_WORD_TRAINING_LIST
              /\ In (res_status r) [200; 500])
          \/ (requestUrl.(pathname) = TRIGGER_PATH.WAKE_WORD_TRAINING_DOWNLOAD
              /\ In (res_status r) [200; 400; 404; 500])
          \/ (requestUrl.(pathname) <> TRIGGER_PATH.WAKE_WORD_TRAINING_UPLOAD
              /\ requestUrl.(pathname) <> TRIGGER_PATH.WAKE_WORD_TRAINING_LIST
              /\ requestUrl.(pathname) <> TRIGGER_PATH.WAKE_WORD_TRAINING_DOWNLOAD
              /\ res_status r = 404))).
Proof.
  intros Hrun.
  destruct (dispatcher_response_cases _ _ _ _ _ Hrun)
    as [[Hm Hr]|[Hm [[Hp Hup]|[[Hp Hlist]|[[Hp Hdown]|(Hu & Hl & Hd & Hr)]]]]].
  - left. rewrite Hr. split; [exact Hm|reflexivity].
  - right. split; [exact Hm|]. left. split; [exact Hp|].
    destruct (upload_response _ _ _ _ Hup) as (props & status & -> & Hin). exact Hin.
  - right. split; [exact Hm|]. right. left. split; [exact Hp|].
    destruct (list_response event w) as (r0 & Hr0 & [(Hst & _)|[props Hr]]);
      rewrite Hlist in Hr0; injection Hr0 as <-.
    + rewrite Hst. simpl; tauto.
    + rewrite Hr. simpl; tauto.
  - right. split; [exact Hm|]. right. right. left. split; [exact Hp|].
    destruct (download_response _ _ _ _ Hdown) as [(props & status & -> & Hin)|(Hst & _)].
    + simpl in *. tauto.
    + rewrite Hst. simpl; tauto.
  - right. split; [exact Hm|]. right. right. right. rewrite Hr. repeat split; assumption.
Qed.

(** X12.  A response of the dispatcher has a body: either a JSON text,
    served as application/json;charset=UTF-8, or -- only for a 200 on the
    download route -- the stored object's stream. *)
Theorem response_bodies (requestUrl : URL) (event : WorkerEvent)
    (w w' : World B) (r : Response) :
  assistHandler requestUrl event w = (Returned r, w') ->
  (exists text,
      res_body r = TextBody text
      /\ headers_get "Content-Type" (res_headers r) = Some "application/json;charset=UTF-8")
  \/ (exists stream,
         res_body r = StreamBody stream
         /\ res_status r = 200
         /\ event.(request).(method) <> "OPTIONS"
         /\ requestUrl.(pathname) = TRIGGER_PATH.WAKE_WORD_TRAINING_DOWNLOAD).
Proof.
  intros Hrun.
  assert (Hobject : forall props status,
             r = createResponse (JObject props) status ->
             exists text,
               res_body r = TextBody text
               /\ headers_get "Content-Type" (res_headers r)
                  = Some "application/json;charset=UTF-8").
  { intros props status ->. destruct (JSON_stringify_object props) as [text Htext].
    exists text. split; [unfold createResponse; rewrite Htext; reflexivity|].
    apply createResponse_headers. }
  assert (Hstring : forall s status,
             r = createResponse (JString s) status ->
             exists text,
               res_body r = TextBody text
               /\ headers_get "Content-Type" (res_headers r)
                  = Some "application/json;charset=UTF-8").
  { intros s status ->. eexists. split; [reflexivity|]. apply createResponse_headers. }
  destruct (dispatcher_response_cases _ _ _ _ _ Hrun)
    as [[Hm Hr]|[Hm [[Hp Hup]|[[Hp Hlist]|[[Hp Hdown]|(Hu & Hl & Hd & Hr)]]]]].
  - left. exact (Hstring _ _ Hr).
  - left. destruct (upload_response _ _ _ _ Hup) as (props & status & Hr & _).
    exact (Hobject _ _ Hr).
  - left. destruct (list_response event w) as (r0 & Hr0 & [(_ & [text Hbody] & Hheaders)|[props Hr]]);
      rewrite Hlist in Hr0; injection Hr0 as <-.
    + exists text. split; [exact Hbody|]. rewrite Hheaders. vm_compute. reflexivity.
    + exact (Hobject _ _ Hr).
  - destruct (download_response _ _ _ _ Hdown)
      as [(props & status & Hr & _)|(Hst & [stream Hbody] & _)].
    + left. exact (Hobject _ _ Hr).
    + right. exists stream. repeat split; assumption.
  - left. exact (Hstring _ _ Hr).
Qed.
End DispatcherResponses.

(** ** The further properties on concrete requests *)


Lemma upload_key_extension_witness :
  exists stem ext,
    In ext ["webm"; "ogg"; "mp4"; "wav"]
    /\ contentType_of traced_upload.(request) = Some ("audio/" +:+ ext)
    /\ calls (handleUploadAudioFile (tables := sample_demographics) traced_upload
                (sample_world ([] : MemoryBucket))).2
       = (calls (sample_world ([] : MemoryBucket))
          ++ [PutCall (stem +:+ "." +:+ ext) traced_upload.(request).(body)])%list.
Proof.
  apply (upload_key_extension (tables := sample_demographics) traced_upload (sample_world [])).
  vm_compute. reflexivity.
Defined.

Lemma upload_key_wake_word_prefix_witness :
  exists p key,
    In p ["hey_nexus-"; "negative-hey_lexus-"; "negative-hey_texas-"; "negative-texas-"]
    /\ String.prefix p key = true
    /\ calls (handleUploadAudioFile (tables := sample_demographics) traced_upload
                (sample_world ([] : MemoryBucket))).2
       = (calls (sample_world ([] : MemoryBucket))
          ++ [PutCall key traced_upload.(request).(body)])%list.
Proof.
  apply (upload_key_wake_word_prefix (tables := sample_demographics) traced_upload
           (sample_world [])).
  vm_compute. reflexivity.
Defined.

Lemma distinct_cf_ray_distinct_keys_witness :
  exists key1 key2,
    calls (handleUploadAudioFile (tables := sample_demographics) traced_upload
             (sample_world ([] : MemoryBucket))).2
    = (calls (sample_world ([] : MemoryBucket))
       ++ [PutCall key1 traced_upload.(request).(body)])%list
    /\ calls (handleUploadAudioFile (tables := sample_demographics)
                (upload_request
                   [("Content-Type", "audio/webm"); ("Content-Length", "2800");
                    ("CF-Ray", "8a1b2c3d4e60-AMS")]
                   [("wake_word", "texas"); ("language", "en"); ("accent", "us");
                    ("age", "teens")])
                (sample_world ([] : MemoryBucket))).2
       = (calls (sample_world ([] : MemoryBucket)) ++ [PutCall key2 sample_audio])%list
    /\ key1 <> key2.
Proof.
  apply (distinct_cf_ray_distinct_keys (tables := sample_demographics) traced_upload
           (upload_request
              [("Content-Type", "audio/webm"); ("Content-Length", "2800");
               ("CF-Ray", "8a1b2c3d4e60-AMS")]
              [("wake_word", "texas"); ("language", "en"); ("accent", "us");
               ("age", "teens")])
           (sample_world []) (sample_world []) "8a1b2c3d4e5f-AMS" "8a1b2c3d4e60-AMS");
    first [ discriminate | vm_compute; reflexivity ].
Defined.

Lemma download_found_headers_witness :
  exists r,
    handleDownloadFile (get_request [("key", stored_sample.(obj_key))]) stocked_world
    = (Returned r,
       after_call (GetCall stored_sample.(obj_key)) [stored_sample] stocked_world)
    /\ res_status r = 200
    /\ res_body r = StreamBody sample_audio
    /\ headers_get "Content-Length" (res_headers r) = Some "4"
    /\ headers_get "Content-Type" (res_headers r) = Some "audio/webm".
Proof.
  destruct (download_found_headers (get_request [("key", stored_sample.(obj_key))])
              stocked_world stored_sample.(obj_key) stored_sample [stored_sample])
    as (r & Hrun & Hstatus & Hbody & _ & _ & _ & Hlength & _ & Htype);
    [reflexivity | discriminate | reflexivity | reflexivity | reflexivity |].
  exists r. repeat split; assumption.
Defined.

Lemma uploaded_key_downloads_witness :
  exists r w1,
    handleUploadAudioFile (tables := sample_demographics) traced_upload
      (sample_world ([] : MemoryBucket)) = (Returned r, w1)
    /\ exists key,
         r = createResponse (JObject [("message", JString "success"); ("key", JString key)])
               (Some 201)
         /\ key <> ""
         /\ calls w1 = [PutCall key sample_audio]
         /\ forall (download : WorkerEvent),
              searchParams_get "key" download.(request).(searchParams) = Some key ->
              calls (handleDownloadFile download w1).2 = (calls w1 ++ [GetCall key])%list
              /\ (exists r2,
                     (handleDownloadFile download w1).1 = Returned r2
                     /\ In (res_status r2) [200; 404; 500])
              /\ forall (object : R2Object) (b2 : MemoryBucket),
                   r2_get key (bucket w1) = (Returned (Some object), b2) ->
                   has_forbidden_byte key = false ->
                   legal_header_value (stored_contentType object) = true ->
                   exists r2,
                     handleDownloadFile download w1
                     = (Returned r2, after_call (GetCall key) b2 w1)
                     /\ res_status r2 = 200
                     /\ res_body r2 = StreamBody object.(obj_body).
Proof.
  do 2 eexists. split; [vm_compute; reflexivity|].
  eapply (uploaded_key_downloads (tables := sample_demographics) traced_upload
            (sample_world ([] : MemoryBucket))).
  - vm_compute. reflexivity.
  - reflexivity.
Defined.

Lemma dispatcher_throws_only_from_put_witness :
  assistHandler (tables := sample_demographics)
    {| pathname := TRIGGER_PATH.WAKE_WORD_TRAINING_UPLOAD |} traced_upload
    (sample_world offline)
  = (Thrown offline_error,
     after_call
       (PutCall "negative-texas-en_us-teens-do_not_wish_to_say-8a1b2c3d4e5f-AMS.webm"
          sample_audio)
       offline
       (after_log "negative-texas-en_us-teens-do_not_wish_to_say-8a1b2c3d4e5f-AMS.webm"
          (sample_world offline)))
  /\ first_failed_check (tables := sample_demographics) traced_upload.(request) = None
  /\ exists b',
       r2_put (upload_key traced_upload.(request)
                 (Date_now_value (sample_world offline))
                 (Math_random_base36 (sample_world offline)))
         traced_upload.(request).(body) (bucket (sample_world offline))
       = (Thrown offline_error, b').
Proof.
  assert (Hrun : assistHandler (tables := sample_demographics)
                   {| pathname := TRIGGER_PATH.WAKE_WORD_TRAINING_UPLOAD |} traced_upload
                   (sample_world offline)
                 = (Thrown offline_error,
                    after_call
                      (PutCall
                         "negative-texas-en_us-teens-do_not_wish_to_say-8a1b2c3d4e5f-AMS.webm"
                         sample_audio)
                      offline
                      (after_log
                         "negative-texas-en_us-teens-do_not_wish_to_say-8a1b2c3d4e5f-AMS.webm"
                         (sample_world offline)))).
  { vm_compute. reflexivity. }
  split; [exact Hrun|].
  destruct (dispatcher_throws_only_from_put (tables := sample_demographics) _ _ _ _ _ Hrun)
    as (_ & _ & Hvalid & Hput).
  split; assumption.
Defined.

(** The routes are matched letter for letter. *)
Lemma unknown_path_is_not_found_witness :
  assistHandler (tables := sample_demographics)
    {| pathname := "/assist/wake_word/training_data/List" |} (get_request [])
    (sample_world ([] : MemoryBucket))
  = (Returned (createResponse (JString "Not Found") (Some 404)), sample_world [])
  /\ res_body (createResponse (JString "Not Found") (Some 404))
     = TextBody (dquote +:+ "Not Found" +:+ dquote).
Proof.
  apply (unknown_path_is_not_found (tables := sample_demographics)
           {| pathname := "/assist/wake_word/training_data/List" |} (get_request [])
           (sample_world ([] : MemoryBucket))); discriminate.
Defined.

Lemma every_response_is_cross_origin_witness :
  exists r w',
    assistHandler (tables := sample_demographics)
      {| pathname := TRIGGER_PATH.WAKE_WORD_TRAINING_DOWNLOAD |}
      (get_request [("key", stored_sample.(obj_key))]) stocked_world
    = (Returned r, w')
    /\ headers_get "Access-Control-Allow-Origin" (res_headers r) = Some "*"
    /\ headers_get "Access-Control-Allow-Headers" (res_headers r) = Some "Content-Type"
    /\ (headers_get "Access-Control-Allow-Methods" (res_headers r) = Some "PUT"
        \/ headers_get "Access-Control-Allow-Methods" (res_headers r) = Some "GET").
Proof.
  do 2 eexists. split; [vm_compute; reflexivity|].
  eapply (every_response_is_cross_origin (tables := sample_demographics)
            {| pathname := TRIGGER_PATH.WAKE_WORD_TRAINING_DOWNLOAD |}
            (get_request [("key", stored_sample.(obj_key))]) stocked_world).
  vm_compute. reflexivity.
Defined.

Lemma statuses_by_route_witness :
  exists r w',
    assistHandler (tables := sample_demographics)
      {| pathname := TRIGGER_PATH.WAKE_WORD_TRAINING_DOWNLOAD |}
      (get_request [("key", "no-such-recording.webm")]) stocked_world
    = (Returned r, w')
    /\ (("GET" = "OPTIONS" /\ res_status r = 200)
        \/ ("GET" <> "OPTIONS"
            /\ ((TRIGGER_PATH.WAKE_WORD_TRAINING_DOWNLOAD
                 = TRIGGER_PATH.WAKE_WORD_TRAINING_UPLOAD
                 /\ In (res_status r) [201; 400; 405; 413; 415])
                \/ (TRIGGER_PATH.WAKE_WORD_TRAINING_DOWNLOAD
                    = TRIGGER_PATH.WAKE_WORD_TRAINING_LIST
                    /\ In (res_status r) [200; 500])
                \/ (TRIGGER_PATH.WAKE_WORD_TRAINING_DOWNLOAD
                    = TRIGGER_PATH.WAKE_WORD_TRAINING_DOWNLOAD
                    /\ In (res_status r) [200; 400; 404; 500])
                \/ (TRIGGER_PATH.WAKE_WORD_TRAINING_DOWNLOAD
                    <> TRIGGER_PATH.WAKE_WORD_TRAINING_UPLOAD
                    /\ TRIGGER_PATH.WAKE_WORD_TRAINING_DOWNLOAD
                       <> TRIGGER_PATH.WAKE_WORD_TRAINING_LIST
                    /\ TRIGGER_PATH.WAKE_WORD_TRAINING_DOWNLOAD
                       <> TRIGGER_PATH.WAKE_WORD_TRAINING_DOWNLOAD
                    /\ res_status r = 404)))).
Proof.
  do 2 eexists. split; [vm_compute; reflexivity|].
  eapply (statuses_by_route (tables := sample_demographics)
            {| pathname := TRIGGER_PATH.WAKE_WORD_TRAINING_DOWNLOAD |}
            (get_request [("key", "no-such-recording.webm")]) stocked_world).
  vm_compute. reflexivity.
Defined.

Lemma response_bodies_witness :
  exists r w',
    assistHandler (tables := sample_demographics)
      {| pathname := TRIGGER_PATH.WAKE_WORD_TRAINING_LIST |}
      (get_request [("prefix", "hey_nexus-")]) stocked_world
    = (Returned r, w')
    /\ ((exists text,
            res_body r = TextBody text
            /\ headers_get "Content-Type" (res_headers r)
               = Some "application/json;charset=UTF-8")
        \/ (exists stream,
               res_body r = StreamBody stream
               /\ res_status r = 200
               /\ "GET" <> "OPTIONS"
               /\ TRIGGER_PATH.WAKE_WORD_TRAINING_LIST
                  = TRIGGER_PATH.WAKE_WORD_TRAINING_DOWNLOAD)).
Proof.
  do 2 eexists. split; [vm_compute; reflexivity|].
  eapply (response_bodies (tables := sample_demographics)
            {| pathname := TRIGGER_PATH.WAKE_WORD_TRAINING_LIST |}
            (get_request [("prefix", "hey_nexus-")]) stocked_world).
  vm_compute. reflexivity.
Defined.

(** ** The order of the first checks *)

Section CheckOrder.
Context {B : Type} {bucketOps : R2Bucket B} {tables : Demographics}.

(** X14.  The method is judged first and the content type second: a request
    that is not a PUT gets 405 "Invalid method" whatever else is wrong with
    it, and a PUT whose media type is absent or not one of the four allowed
    gets 415 naming the received and the allowed types, whatever its length
    and parameters.  Neither touches the world. *)
Theorem upload_check_order (event : WorkerEvent) (w : World B) :
  (event.(request).(method) <> "PUT" ->
   handleUploadAudioFile event w
   = (Returned (createResponse (message "Invalid method") (Some 405)), w))
  /\ (event.(request).(method) = "PUT" ->
      includes WAKE_WORD_ALLOWED_CONTENT_TYPES (default "" (contentType_of event.(request)))
      = false ->
      handleUploadAudioFile event w
      = (Returned
           (createResponse
              (message ("Invalid content-type, received: "
                        +:+ default "undefined" (contentType_of event.(request))
                        +:+ ", allowed: audio/webm,audio/ogg,audio/mp4,audio/wav"))
              (Some 415)), w)).
Proof.
  split.
  - intros Hm. apply String.eqb_neq in Hm. unfold handleUploadAudioFile.
    rewrite Hm. reflexivity.
  - intros Hm Hct. unfold handleUploadAudioFile. rewrite Hm.
    fold (contentType_of event.(request)). rewrite Hct, orb_true_r. reflexivity.
Qed.
End CheckOrder.

Lemma upload_check_order_witness :
  handleUploadAudioFile (tables := sample_demographics)
    {| request := {| method := "POST"; headers := new_Headers [("Content-Type", "text/plain")];
                     searchParams := []; body := sample_audio |} |}
    (sample_world ([] : MemoryBucket))
  = (Returned (createResponse (message "Invalid method") (Some 405)), sample_world [])
  /\ handleUploadAudioFile (tables := sample_demographics)
       (upload_request [("Content-Type", "audio/flac"); ("Content-Length", "999999")] [])
       (sample_world ([] : MemoryBucket))
     = (Returned
          (createResponse
             (message "Invalid content-type, received: audio/flac, allowed: audio/webm,audio/ogg,audio/mp4,audio/wav")
             (Some 415)), sample_world []).
Proof.
  split.
  - apply (proj1 (upload_check_order (tables := sample_demographics)
                    {| request := {| method := "POST";
                                     headers := new_Headers [("Content-Type", "text/plain")];
                                     searchParams := []; body := sample_audio |} |}
                    (sample_world ([] : MemoryBucket)))).
    discriminate.
  - apply (proj2 (upload_check_order (tables := sample_demographics)
                    (upload_request [("Content-Type", "audio/flac");
                                     ("Content-Length", "999999")] [])
                    (sample_world ([] : MemoryBucket))));
      [reflexivity | vm_compute; reflexivity].
Defined.

(** A recording uploaded to the bucket in memory comes back on download. *)
Example round_trip_in_memory :
  let stored := (handleUploadAudioFile (tables := sample_demographics) traced_upload
                   (sample_world ([] : MemoryBucket))).2 in
  has_forbidden_byte "negative-texas-en_us-teens-do_not_wish_to_say-8a1b2c3d4e5f-AMS.webm"
  = false
  /\ match handleDownloadFile
             (get_request
                [("key", "negative-texas-en_us-teens-do_not_wish_to_say-8a1b2c3d4e5f-AMS.webm")])
             stored with
     | (Returned r, w') =>
         (res_status r, res_body r, headers_get "Content-Type" (res_headers r), calls w')
     | (Thrown _, _) => (0, EmptyBody, None, [])
     end
     = (200, StreamBody sample_audio, None,
        [PutCall "negative-texas-en_us-teens-do_not_wish_to_say-8a1b2c3d4e5f-AMS.webm"
           sample_audio;
         GetCall "negative-texas-en_us-teens-do_not_wish_to_say-8a1b2c3d4e5f-AMS.webm"]).
Proof. split; vm_compute; reflexivity. Qed.
